(** * stonely: the analyze page and the rock mesh, embedded and checked

    Sources embedded here:
    - [src/app/analyze/page.tsx]: the [UploadSection] component (its React
      state, the validation effect, the upload, drop, generation and reset
      handlers);
    - [rock-model-3d.tsx] (the second file inside
      [src/components/sections/examples.tsx]): the two [useMemo] callbacks of
      [RockMesh], which build the buffer geometry and the material.

    JavaScript numbers are IEEE binary64 values ([spec_float] at precision 53);
    typed arrays convert on store, and those conversions are written out.
    A response body is a parsed JSON value, read without a type where the
    code reads it so ([errorData]); a payload property is a value, [null] or
    [undefined].  Thrown values and an allocation counter for object identity
    stand for the rest of the language. *)

From Stdlib Require Import ZArith NArith String DecimalString SpecFloat.
From stdpp Require Import gmap strings list.

Open Scope Z_scope.

(** ** JavaScript values *)

Module Js.

(** A JS [Number]. *)
Definition number : Type := spec_float.

(** Nearest binary32 value (ties to even); the result is a binary32 datum. *)
Definition to_binary32 (x : number) : spec_float :=
  match x with
  | S754_finite s m e => binary_round 24 128 s m e
  | _ => x
  end.

(** A binary32 datum read back as a [Number] (exact). *)
Definition of_binary32 (x : spec_float) : number :=
  match x with
  | S754_finite s m e => binary_round 53 1024 s m e
  | _ => x
  end.

(** [Math.fround]: what reading a [Float32Array] slot gives after storing
    [x] in it. *)
Definition fround (x : number) : number := of_binary32 (to_binary32 x).

(** [ToUint32]: truncate toward zero, then reduce modulo 2^32; NaN, the
    infinities and the zeros give 0. *)
Definition ToUint32 (x : number) : Z :=
  match x with
  | S754_finite s m e =>
      let magnitude :=
        if 0 <=? e then Z.pos m * 2 ^ e else Z.pos m / 2 ^ (- e) in
      cond_Zopp s magnitude mod 2 ^ 32
  | _ => 0
  end.

(** The integer a [Number] denotes, when it denotes one. *)
Definition integer_value (x : number) : option Z :=
  match x with
  | S754_zero _ => Some 0
  | S754_finite s m e =>
      if 0 <=? e then Some (cond_Zopp s (Z.pos m * 2 ^ e))
      else if Z.pos m mod 2 ^ (- e) =? 0
           then Some (cond_Zopp s (Z.pos m / 2 ^ (- e)))
           else None
  | _ => None
  end.

(** The [Number] of an integer literal. *)
Definition of_Z (z : Z) : number := binary_normalize 53 1024 z 0 false.

(** [Array.prototype.flat()] on an array of arrays (depth 1). *)
Definition flat {A} (xss : list (list A)) : list A := concat xss.

(** [new Float32Array(xs)] and [new Uint32Array(xs)], as the sequence of
    values their slots read back. *)
Definition Float32Array (xs : list number) : list number := map fround xs.
Definition Uint32Array (xs : list number) : list Z := map ToUint32 xs.

(** A value reaching a [catch] clause: an [Error] instance with its
    [message], or anything else. *)
Inductive Thrown :=
| ErrorObject (message : string)
| NotAnError.

(** [err instanceof Error ? err.message : fallback]. *)
Definition message_or (fallback : string) (err : Thrown) : string :=
  match err with
  | ErrorObject m => m
  | NotAnError => fallback
  end.

(** [null] or [undefined]. *)
Inductive Nullish := Null | Undefined.

(** A property read from a parsed object: a value, or [null], or nothing
    ([undefined]). *)
Inductive Maybe (A : Type) :=
| Defined (a : A)
| Missing (k : Nullish).
Arguments Defined {A} _.
Arguments Missing {A} _.

Definition to_option {A} (m : Maybe A) : option A :=
  match m with
  | Defined a => Some a
  | Missing _ => None
  end.

(** The TypeError of reading a property of [null] or [undefined] (V8's
    wording of the message). *)
Definition nullish_property (k : Nullish) (name : string) : Thrown :=
  ErrorObject
    ("Cannot read properties of "
     ++ match k with Null => "null" | Undefined => "undefined" end
     ++ " (reading '" ++ name ++ "')").

(** Template-literal rendering of a non-negative integer. *)
Definition decimal (n : N) : string := NilEmpty.string_of_uint (N.to_uint n).

(** *** Numbers as strings *)

(** [a * 2^e2 / 10^t] as a fraction with a positive denominator. *)
Definition scaled (a e2 t : Z) : Z * Z :=
  (a * (if 0 <=? e2 then 2 ^ e2 else 1) * (if 0 <=? t then 1 else 10 ^ (- t)),
   (if 0 <=? e2 then 1 else 2 ^ (- e2)) * (if 0 <=? t then 10 ^ t else 1)).

Definition floor_div (f : Z * Z) : Z := fst f / snd f.
Definition ceil_div (f : Z * Z) : Z := - ((- fst f) / snd f).

(** Nearest integer, ties to even. *)
Definition nearest (f : Z * Z) : Z :=
  let q := fst f / snd f in
  let r := fst f mod snd f in
  match 2 * r ?= snd f with
  | Lt => q
  | Gt => q + 1
  | Eq => if Z.even q then q else q + 1
  end.

(** The largest [n] (searched upward from [n], at most [fuel] steps) with
    [m * 2^e >= 10^n]. *)
Fixpoint decimal_floor (fuel : nat) (m : positive) (e n : Z) : Z :=
  match fuel with
  | O => n
  | S fuel' =>
      let f := scaled (Z.pos m) e (n + 1) in
      if snd f <=? fst f then decimal_floor fuel' m e (n + 1) else n
  end.

(** A lower bound of the decimal exponent, from the binary one:
    [log10 2] lies between 0.30102 and 0.30103. *)
Definition decimal_estimate (m : positive) (e : Z) : Z :=
  let a := Z.log2 (Z.pos m) + e in
  if 0 <=? a then a * 30102 / 100000 else a * 30103 / 100000.

(** The digits [s] with [k] digits at decimal exponent [n] (the value is
    [s * 10^(n-k)]) that read back as [m * 2^e] and are closest to it, if
    any; with the distance to the value as a fraction of [10^(n-k)]. *)
Definition candidate (m : positive) (e : Z) (k n : Z) : option (Z * (Z * Z)) :=
  let boundary := (Z.pos m =? 2 ^ 52) && (-1074 <? e) in
  let inclusive := Z.even (Z.pos m) in
  let t := n - k in
  let lo := scaled (4 * Z.pos m - (if boundary then 1 else 2)) (e - 2) t in
  let hi := scaled (4 * Z.pos m + 2) (e - 2) t in
  let x := scaled (4 * Z.pos m) (e - 2) t in
  let s_min := if inclusive then ceil_div lo else floor_div lo + 1 in
  let s_max := if inclusive then floor_div hi else ceil_div hi - 1 in
  let s_min := Z.max s_min (10 ^ (k - 1)) in
  let s_max := Z.min s_max (10 ^ k - 1) in
  if s_min <=? s_max then
    let s := Z.max s_min (Z.min s_max (nearest x)) in
    Some (s, (Z.abs (s * snd x - fst x), snd x))
  else None.

(** The shortest digits, trying [k] = 1, 2, ...; at each [k] the two possible
    exponents, keeping the closer one. *)
Fixpoint shortest (fuel : nat) (m : positive) (e : Z) (k n0 : Z) : Z * Z * Z :=
  match fuel with
  | O => (Z.pos m, k, n0)
  | S fuel' =>
      match candidate m e k n0, candidate m e k (n0 + 1) with
      | Some (s1, (d1, den1)), Some (s2, (d2, den2)) =>
          if d1 * den2 <=? 10 * d2 * den1 then (s1, k, n0) else (s2, k, n0 + 1)
      | Some (s1, _), None => (s1, k, n0)
      | None, Some (s2, _) => (s2, k, n0 + 1)
      | None, None => shortest fuel' m e (k + 1) n0
      end
  end.

Definition zeros (n : Z) : string := String.concat "" (repeat "0"%string (Z.to_nat n)).

Definition format (s k n : Z) : string :=
  let digits := decimal (Z.to_N s) in
  if (k <=? n) && (n <=? 21) then (digits ++ zeros (n - k))%string
  else if (0 <? n) && (n <=? 21) then
    (substring 0 (Z.to_nat n) digits ++ "."
     ++ substring (Z.to_nat n) (Z.to_nat (k - n)) digits)%string
  else if (-6 <? n) && (n <=? 0) then ("0." ++ zeros (- n) ++ digits)%string
  else
    let sign : string := if n - 1 <? 0 then "-"%string else "+"%string in
    let exponent := (sign ++ decimal (Z.to_N (Z.abs (n - 1))))%string in
    if k =? 1 then (digits ++ "e" ++ exponent)%string
    else (substring 0 1 digits ++ "." ++ substring 1 (Z.to_nat (k - 1)) digits
          ++ "e" ++ exponent)%string.

(** [Number::toString] (radix 10): the shortest digits that read back as the
    number, the closest such digits when several do, laid out as ECMAScript
    prescribes. *)
Definition Number_toString (x : number) : string :=
  match x with
  | S754_nan => "NaN"
  | S754_zero _ => "0"
  | S754_infinity s => if s then "-Infinity" else "Infinity"
  | S754_finite s m e =>
      let n0 := decimal_floor 4 m e (decimal_estimate m e) + 1 in
      let '(d, k, n) := shortest 17 m e 1 n0 in
      let sign : string := if s then "-"%string else ""%string in
      (sign ++ format d k n)%string
  end.

(** *** Parsed JSON *)

(** What [response.json()] can give.  In an object a later duplicate of a key
    wins. *)
Unset Elimination Schemes.
Inductive Json :=
| JNull
| JBool (b : bool)
| JNumber (x : number)
| JString (s : string)
| JArray (elements : list Json)
| JObject (fields : list (string * Json)).
Set Elimination Schemes.

(** [ToBoolean]. *)
Definition ToBoolean (v : Json) : bool :=
  match v with
  | JNull => false
  | JBool b => b
  | JNumber (S754_zero _) | JNumber S754_nan => false
  | JNumber _ => true
  | JString s => negb (String.eqb s "")
  | JArray _ | JObject _ => true
  end.

Fixpoint own_property (name : string) (fields : list (string * Json)) : option Json :=
  match fields with
  | [] => None
  | (k, v) :: rest =>
      match own_property name rest with
      | Some later => Some later
      | None => if String.eqb k name then Some v else None
      end
  end.

(** [v.name] for a name that no prototype defines: a TypeError on [null],
    the own property of an object, [undefined] on anything else. *)
Definition property (name : string) (v : Json) : Thrown + option Json :=
  match v with
  | JNull => inl (nullish_property Null name)
  | JObject fields => inr (own_property name fields)
  | _ => inr None
  end.

(** [a || b] where [a] may be [undefined]. *)
Definition or_else (a : option Json) (b : Json) : Json :=
  match a with
  | Some v => if ToBoolean v then v else b
  | None => b
  end.

(** [ToString].  An array joins its elements with commas, [null] elements
    giving the empty string; an object gives "[object Object]" unless it has
    an own property [toString], which a parsed value cannot make callable, so
    that the conversion throws. *)
Fixpoint ToString (v : Json) : Thrown + string :=
  match v with
  | JNull => inr "null"%string
  | JBool b => inr (if b then "true" else "false")%string
  | JNumber x => inr (Number_toString x)
  | JString s => inr s
  | JArray elements =>
      (fix join (l : list Json) : Thrown + string :=
         match l with
         | [] => inr ""%string
         | x :: rest =>
             match (match x with JNull => inr ""%string | _ => ToString x end) with
             | inl t => inl t
             | inr first =>
                 match rest with
                 | [] => inr first
                 | _ :: _ =>
                     match join rest with
                     | inl t => inl t
                     | inr others => inr (first ++ "," ++ others)%string
                     end
                 end
             end
         end) elements
  | JObject fields =>
      match own_property "toString" fields with
      | Some _ => inl (ErrorObject "Cannot convert object to primitive value")
      | None => inr "[object Object]"%string
      end
  end.

(** What [throw new Error(message)] throws: the Error, or what converting the
    message to a string throws. *)
Definition new_Error (message : Json) : Thrown :=
  match ToString message with
  | inl t => t
  | inr text => ErrorObject text
  end.

(** Object identity: every [new] takes the next reference. *)
Record Heap := { next_ref : nat }.

(** Computations that allocate and may throw. *)
Definition Eff (A : Type) : Type := Heap -> (Thrown + A) * Heap.

Definition ret {A} (a : A) : Eff A := fun h => (inr a, h).
Definition throw {A} (t : Thrown) : Eff A := fun h => (inl t, h).
Definition bind {A B} (c : Eff A) (k : A -> Eff B) : Eff B :=
  fun h =>
    match c h with
    | (inl t, h') => (inl t, h')
    | (inr a, h') => k a h'
    end.
Definition new_object : Eff nat :=
  fun h => (inr (next_ref h), {| next_ref := S (next_ref h) |}).

(** [o.name] where [o] may be [null] or [undefined]. *)
Definition get {A} (name : string) (o : Maybe A) : Eff A :=
  match o with
  | Defined a => ret a
  | Missing k => throw (nullish_property k name)
  end.

End Js.

Notation "'let!' x ':=' c 'in' k" := (Js.bind c (fun x => k))
  (at level 10, x name, c at level 100, k at level 200).

(** ** The payload ([interface ModelData], declared twice with the same shape) *)

Record Metadata := {
  vertex_count : N;
  face_count : N;
  original_dimensions : list Js.number;
  scale_factor : Js.number
}.

(** The four arrays arrive from [response.json()]; the code tests each for
    presence before use, so each may be [null] or absent. *)
Record ModelData := {
  vertices_prop : Js.Maybe (list (list Js.number));
  faces_prop : Js.Maybe (list (list Js.number));
  texture_coords_prop : Js.Maybe (list (list Js.number));
  colors_prop : Js.Maybe (list (list Js.number));
  metadata : Metadata
}.

(** Each array when it is there. *)
Definition vertices (modelData : ModelData) := Js.to_option (vertices_prop modelData).
Definition faces (modelData : ModelData) := Js.to_option (faces_prop modelData).
Definition texture_coords (modelData : ModelData) :=
  Js.to_option (texture_coords_prop modelData).
Definition colors (modelData : ModelData) := Js.to_option (colors_prop modelData).

(** ** three.js objects, as far as [RockMesh] fills them *)

Module Three.

(** [THREE.BufferAttribute(array, itemSize)]. *)
Record BufferAttribute (A : Type) := {
  array : list A;
  itemSize : nat
}.
Arguments array {A} _.
Arguments itemSize {A} _.

(** [attribute.count = array.length / itemSize]. *)
Definition count {A} (a : BufferAttribute A) : nat :=
  Nat.div (length (array a)) (itemSize a).

(** [THREE.BufferGeometry]; the [normal] attribute written by
    [computeVertexNormals] is derived from [position] and [index] and is
    not represented. *)
Record BufferGeometry := {
  ref : nat;
  position : option (BufferAttribute Js.number);
  index : option (BufferAttribute Z);
  color : option (BufferAttribute Js.number);
  uv : option (BufferAttribute Js.number);
  normals_computed : bool
}.

Definition empty_geometry (r : nat) : BufferGeometry :=
  {| ref := r; position := None; index := None; color := None; uv := None;
     normals_computed := false |}.

Definition setPosition (a : BufferAttribute Js.number) (g : BufferGeometry) :=
  {| ref := ref g; position := Some a; index := index g; color := color g;
     uv := uv g; normals_computed := normals_computed g |}.
Definition setIndex (a : BufferAttribute Z) (g : BufferGeometry) :=
  {| ref := ref g; position := position g; index := Some a; color := color g;
     uv := uv g; normals_computed := normals_computed g |}.
Definition setColor (a : BufferAttribute Js.number) (g : BufferGeometry) :=
  {| ref := ref g; position := position g; index := index g; color := Some a;
     uv := uv g; normals_computed := normals_computed g |}.
Definition setUv (a : BufferAttribute Js.number) (g : BufferGeometry) :=
  {| ref := ref g; position := position g; index := index g; color := color g;
     uv := Some a; normals_computed := normals_computed g |}.
Definition computeVertexNormals (g : BufferGeometry) :=
  {| ref := ref g; position := position g; index := index g; color := color g;
     uv := uv g; normals_computed := true |}.

(** Triangles drawn from an indexed geometry: [index.count / 3]. *)
Definition triangle_count (g : BufferGeometry) : nat :=
  match index g with
  | Some a => Nat.div (count a) 3
  | None => 0%nat
  end.

Inductive Side := FrontSide | BackSide | DoubleSide.

(** [THREE.MeshStandardMaterial]. *)
Record MeshStandardMaterial := {
  material_ref : nat;
  vertexColors : bool;
  material_color : Z;
  roughness : Js.number;
  metalness : Js.number;
  side : Side
}.

End Three.

(** ** [RockMesh] *)

(** [a && a.length > 0] for an array that may be missing. *)
Definition present_and_nonempty {A} (a : option (list A)) : bool :=
  match a with
  | Some (_ :: _) => true
  | _ => false
  end.

(** The [geometry] memo callback. *)
Definition RockMesh_geometry (modelData : ModelData) : Js.Eff Three.BufferGeometry :=
  let! r := Js.new_object in
  let geom := Three.empty_geometry r in
  let! vs := Js.get "flat" (vertices_prop modelData) in
  let geom :=
    Three.setPosition
      {| Three.array := Js.Float32Array (Js.flat vs); Three.itemSize := 3 |} geom in
  let! fs := Js.get "flat" (faces_prop modelData) in
  let geom :=
    Three.setIndex
      {| Three.array := Js.Uint32Array (Js.flat fs); Three.itemSize := 1 |} geom in
  let geom :=
    if present_and_nonempty (colors modelData) then
      Three.setColor
        {| Three.array := Js.Float32Array (Js.flat (default [] (colors modelData)));
           Three.itemSize := 3 |} geom
    else geom in
  let geom :=
    if present_and_nonempty (texture_coords modelData) then
      Three.setUv
        {| Three.array := Js.Float32Array (Js.flat (default [] (texture_coords modelData)));
           Three.itemSize := 2 |} geom
    else geom in
  Js.ret (Three.computeVertexNormals geom).

(** 0.8 and 0.1 as binary64. *)
Definition number_0_8 : Js.number := S754_finite false 7205759403792794 (-53).
Definition number_0_1 : Js.number := S754_finite false 7205759403792794 (-56).

(** The [material] memo callback.  [vertexColors] receives
    [modelData.colors && modelData.colors.length > 0]; when [colors] is
    missing that is [undefined], which the material constructor skips, leaving
    the default [false]. *)
Definition RockMesh_material (modelData : ModelData) : Js.Eff Three.MeshStandardMaterial :=
  let! r := Js.new_object in
  Js.ret
    {| Three.material_ref := r;
       Three.vertexColors := present_and_nonempty (colors modelData);
       Three.material_color :=
         if present_and_nonempty (colors modelData) then 0xffffff else 0x8B7355;
       Three.roughness := number_0_8;
       Three.metalness := number_0_1;
       Three.side := Three.DoubleSide |}.


(** ** [src/app/analyze/page.tsx]: data *)

Record UploadResponse := {
  success : bool;
  message : string;
  file_id : string;
  filename : string;
  size : N;
  content_type : string;
  upload_time : string
}.

Record ProcessingInfo := {
  depth_estimation : string;
  device_used : string;
  mesh_generation : string
}.

Record Summary := {
  summary_vertex_count : N;
  summary_face_count : N;
  has_texture : bool;
  has_colors : bool;
  bbox_min : list Js.number;
  bbox_max : list Js.number
}.

(** [model_data] is read through [generate3DResult?.model_data], so it may be
    [null] or absent. *)
Record Generate3DResponse := {
  g_success : bool;
  g_message : string;
  g_file_id : string;
  model_data_prop : Js.Maybe ModelData;
  processing_info : ProcessingInfo;
  generation_time : string;
  summary : Summary
}.

Definition model_data (r : Generate3DResponse) := Js.to_option (model_data_prop r).

Record File := {
  file_name : string;
  file_size : N;
  file_type : string
}.

(** ** [fetch] *)

Module Fetch.

Record RequestInit := {
  method : string;
  headers : list (string * string);
  body : option (list (string * File))
}.

Record Request := {
  url : string;
  init : RequestInit
}.

(** A parsed body: the JSON value itself, which is what the untyped
    [errorData] is, and the same value as the interface [T] reads it, which is
    what [const result: T] is when the value is truthy. *)
Record Body (T : Type) := {
  any : Js.Json;
  annotated : T
}.
Arguments any {T} _.
Arguments annotated {T} _.

(** The value [const result: T = await response.json()] holds, as the state
    setters and the render conditions see it: a falsy body (such as [null])
    behaves as [null]. *)
Definition result {T} (b : Body T) : option T :=
  if Js.ToBoolean (any b) then Some (annotated b) else None.

(** [response.json()] either throws (the body is not JSON) or gives the
    parsed body. *)
Record Response (T : Type) := {
  status : N;
  json : Js.Thrown + Body T
}.
Arguments status {T} _.
Arguments json {T} _.

(** [response.ok]. *)
Definition ok {T} (r : Response T) : bool :=
  ((200 <=? status r) && (status r <=? 299))%N.

(** How the promise returned by [fetch] settles. *)
Inductive Settled (T : Type) :=
| Rejected (reason : Js.Thrown)
| Fulfilled (response : Response T).
Arguments Rejected {T} _.
Arguments Fulfilled {T} _.

End Fetch.

(** ** [UploadSection]: state *)

Record HTMLInputElement := { value : string }.

Record State := {
  isDragging : bool;
  isUploading : bool;
  uploadResult : option UploadResponse;
  error : option string;
  isGenerating3D : bool;
  generate3DResult : option Generate3DResponse;
  is3DReady : bool;
  threeDError : option string;
  fileInputRef : option HTMLInputElement
}.

Definition setIsDragging (b : bool) (s : State) : State :=
  {| isDragging := b; isUploading := isUploading s;
     uploadResult := uploadResult s; error := error s;
     isGenerating3D := isGenerating3D s;
     generate3DResult := generate3DResult s; is3DReady := is3DReady s;
     threeDError := threeDError s; fileInputRef := fileInputRef s |}.

Definition setIsUploading (b : bool) (s : State) : State :=
  {| isDragging := isDragging s; isUploading := b;
     uploadResult := uploadResult s; error := error s;
     isGenerating3D := isGenerating3D s;
     generate3DResult := generate3DResult s; is3DReady := is3DReady s;
     threeDError := threeDError s; fileInputRef := fileInputRef s |}.

Definition setUploadResult (r : option UploadResponse) (s : State) : State :=
  {| isDragging := isDragging s; isUploading := isUploading s;
     uploadResult := r; error := error s;
     isGenerating3D := isGenerating3D s;
     generate3DResult := generate3DResult s; is3DReady := is3DReady s;
     threeDError := threeDError s; fileInputRef := fileInputRef s |}.

Definition setError (e : option string) (s : State) : State :=
  {| isDragging := isDragging s; isUploading := isUploading s;
     uploadResult := uploadResult s; error := e;
     isGenerating3D := isGenerating3D s;
     generate3DResult := generate3DResult s; is3DReady := is3DReady s;
     threeDError := threeDError s; fileInputRef := fileInputRef s |}.

Definition setIsGenerating3D (b : bool) (s : State) : State :=
  {| isDragging := isDragging s; isUploading := isUploading s;
     uploadResult := uploadResult s; error := error s;
     isGenerating3D := b;
     generate3DResult := generate3DResult s; is3DReady := is3DReady s;
     threeDError := threeDError s; fileInputRef := fileInputRef s |}.

Definition setGenerate3DResult (r : option Generate3DResponse) (s : State) : State :=
  {| isDragging := isDragging s; isUploading := isUploading s;
     uploadResult := uploadResult s; error := error s;
     isGenerating3D := isGenerating3D s;
     generate3DResult := r; is3DReady := is3DReady s;
     threeDError := threeDError s; fileInputRef := fileInputRef s |}.

Definition setIs3DReady (b : bool) (s : State) : State :=
  {| isDragging := isDragging s; isUploading := isUploading s;
     uploadResult := uploadResult s; error := error s;
     isGenerating3D := isGenerating3D s;
     generate3DResult := generate3DResult s; is3DReady := b;
     threeDError := threeDError s; fileInputRef := fileInputRef s |}.

Definition setThreeDError (e : option string) (s : State) : State :=
  {| isDragging := isDragging s; isUploading := isUploading s;
     uploadResult := uploadResult s; error := error s;
     isGenerating3D := isGenerating3D s;
     generate3DResult := generate3DResult s; is3DReady := is3DReady s;
     threeDError := e; fileInputRef := fileInputRef s |}.

Definition setFileInputRef (r : option HTMLInputElement) (s : State) : State :=
  {| isDragging := isDragging s; isUploading := isUploading s;
     uploadResult := uploadResult s; error := error s;
     isGenerating3D := isGenerating3D s;
     generate3DResult := generate3DResult s; is3DReady := is3DReady s;
     threeDError := threeDError s; fileInputRef := r |}.

(** The [useState] defaults, with the drop zone (and its file input) mounted. *)
Definition initial_state : State :=
  {| isDragging := false; isUploading := false; uploadResult := None;
     error := None; isGenerating3D := false; generate3DResult := None;
     is3DReady := false; threeDError := None;
     fileInputRef := Some {| value := "" |} |}.

(** ** What is rendered *)

(** Truthiness of an object that may be [null], and of a string that may be
    [null] (the empty string is falsy). *)
Definition truthy {A} (o : option A) : bool :=
  match o with Some _ => true | None => false end.

Definition truthy_string (o : option string) : bool :=
  match o with
  | Some EmptyString | None => false
  | Some _ => true
  end.

(** The drop zone and its [<input type="file">]:
    [!uploadResult && !error && !generate3DResult]. *)
Definition dropzone_rendered (s : State) : bool :=
  negb (truthy (uploadResult s))
  && negb (truthy_string (error s))
  && negb (truthy (generate3DResult s)).

(** The upload card with "Upload Another" and "Start Analysis":
    [uploadResult && !generate3DResult]. *)
Definition upload_card_rendered (s : State) : bool :=
  truthy (uploadResult s)
  && negb (truthy (generate3DResult s)).

(** The viewport card with "Analyze Another Rock": [generate3DResult]. *)
Definition viewport_card_rendered (s : State) : bool :=
  truthy (generate3DResult s).

(** The error card with "Try Again": [error]. *)
Definition error_card_rendered (s : State) : bool :=
  truthy_string (error s).

(** The three views inside the viewport card. *)
Inductive ViewportView := LoaderView | ErrorView | MeshView.

Definition viewport_views (s : State) : list ViewportView :=
  (if negb (is3DReady s) && negb (truthy_string (threeDError s))
   then [LoaderView] else [])
  ++ (if truthy_string (threeDError s) then [ErrorView] else [])
  ++ (if is3DReady s && truthy (generate3DResult s)
      then [MeshView] else []).

(** React detaches the ref when the input leaves the tree and attaches a
    fresh element (empty value) when it enters. *)
Definition attach_ref (s : State) : State :=
  if dropzone_rendered s then
    match fileInputRef s with
    | Some _ => s
    | None => setFileInputRef (Some {| value := "" |}) s
    end
  else setFileInputRef None s.

(** The states of the specification's state machine, read off the fields the
    render conditions test. *)
Inductive Phase :=
| Idle | Uploading | Uploaded | Generating
| ValidatingGeometry | Ready | UploadError | GenerationError.

Definition phase (s : State) : Phase :=
  if isUploading s then Uploading
  else if isGenerating3D s then Generating
  else
  if truthy_string (error s) then
    if truthy (uploadResult s) then GenerationError else UploadError
  else if truthy (generate3DResult s) then
    if truthy_string (threeDError s) then GenerationError
    else if is3DReady s then Ready
    else ValidatingGeometry
  else if truthy (uploadResult s) then Uploaded
  else Idle.

(** ** The component with its timers and pending requests *)

(** A pending [setTimeout]: the callback closes over the [generate3DResult] of
    the render that scheduled it. *)
Record Timeout := {
  captured : Generate3DResponse;
  delay : N
}.

(** An [async] handler suspended at [await fetch(...)]. *)
Inductive Suspended :=
| AwaitUpload (request : Fetch.Request)
| AwaitGenerate (request : Fetch.Request).

Record World := {
  page : State;
  timers : gmap nat Timeout;
  next_timer : nat;
  effect_cleanup : option nat;
  in_flight : list Suspended
}.

Definition with_page (f : State -> State) (w : World) : World :=
  {| page := f (page w); timers := timers w; next_timer := next_timer w;
     effect_cleanup := effect_cleanup w; in_flight := in_flight w |}.

Definition fetch (s : Suspended) (w : World) : World :=
  {| page := page w; timers := timers w; next_timer := next_timer w;
     effect_cleanup := effect_cleanup w; in_flight := in_flight w ++ [s] |}.

Definition initial_world : World :=
  {| page := initial_state; timers := ∅; next_timer := 0%nat;
     effect_cleanup := None; in_flight := [] |}.

(** *** The validation effect, [useEffect(..., [generate3DResult])] *)

Definition missing {A} (a : option (list A)) : bool :=
  match a with Some _ => false | None => true end.

(** The body of the [try] inside the timer callback. *)
Definition validate (r : Generate3DResponse) : Js.Thrown + unit :=
  match model_data_prop r with
  | Js.Missing k => inl (Js.nullish_property k "vertices")
  | Js.Defined modelData =>
      if missing (vertices modelData) || missing (faces modelData)
         || (length (default [] (vertices modelData)) =? 0)%nat
      then inl (Js.ErrorObject "Invalid model data structure")
      else inr tt
  end.

(** The timer callback. *)
Definition validation_callback (r : Generate3DResponse) (s : State) : State :=
  match validate r with
  | inr _ => setIs3DReady true s
  | inl err =>
      setThreeDError (Some (Js.message_or "Failed to prepare 3D model" err)) s
  end.

(** [return () => clearTimeout(timer)], run by React before the effect runs
    again. *)
Definition run_cleanup (w : World) : World :=
  match effect_cleanup w with
  | Some t =>
      {| page := page w; timers := delete t (timers w);
         next_timer := next_timer w; effect_cleanup := None;
         in_flight := in_flight w |}
  | None => w
  end.

(** The effect body. *)
Definition run_effect (w : World) : World :=
  match generate3DResult (page w) with
  | Some r =>
      if truthy (model_data r) then
        let t := next_timer w in
        {| page := setThreeDError None (setIs3DReady false (page w));
           timers := <[t := {| captured := r; delay := 500 |}]> (timers w);
           next_timer := S t;
           effect_cleanup := Some t;
           in_flight := in_flight w |}
      else w
  | None => w
  end.

(** What React does after a render in which [setGenerate3DResult] was called:
    the previous cleanup, then the effect.  Store, cleanup and effect are taken
    as one step: no other event is handled in between.  (When [null] replaces
    [null] React skips both; cleanup and effect are then no-ops, so running
    them changes nothing.) *)
Definition generate3DResult_changed (w : World) : World :=
  run_effect (run_cleanup w).

(** *** Handlers *)

Definition upload_request (file : File) : Fetch.Request :=
  {| Fetch.url := "http://localhost:8000/upload-image";
     Fetch.init :=
       {| Fetch.method := "POST"; Fetch.headers := [];
          Fetch.body := Some [("file", file)] |} |}.

(** [handleFileUpload], up to [await fetch(...)]. *)
Definition handleFileUpload (file : File) (w : World) : World :=
  let w := with_page (setIsUploading true) w in
  let w := with_page (setError None) w in
  let w := with_page (setUploadResult None) w in
  fetch (AwaitUpload (upload_request file)) w.

(** What the [try] block amounts to once the fetch has settled: the parsed
    result, or the value that reaches [catch]. *)
Definition upload_try (o : Fetch.Settled UploadResponse) :
  Js.Thrown + option UploadResponse :=
  match o with
  | Fetch.Rejected reason => inl reason
  | Fetch.Fulfilled response =>
      if negb (Fetch.ok response) then
        match Fetch.json response with
        | inl t => inl t
        | inr errorData =>
            match Js.property "detail" (Fetch.any errorData) with
            | inl t => inl t
            | inr detail =>
                inl (Js.new_Error
                       (Js.or_else detail
                          (Js.JString
                             ("Upload failed: " ++ Js.decimal (Fetch.status response)))))
            end
        end
      else
        match Fetch.json response with
        | inl t => inl t
        | inr result => inr (Fetch.result result)
        end
  end.

(** [handleFileUpload], from the settled fetch to the end of [finally]. *)
Definition handleFileUpload_resume (o : Fetch.Settled UploadResponse) (w : World) : World :=
  let w :=
    match upload_try o with
    | inr result => with_page (setUploadResult result) w
    | inl err => with_page (setError (Some (Js.message_or "Upload failed" err))) w
    end in
  with_page (setIsUploading false) w.

Definition handleDragOver (w : World) : World :=
  with_page (setIsDragging true) w.

Definition handleDragLeave (w : World) : World :=
  with_page (setIsDragging false) w.

(** [handleDrop]: [files] is [e.dataTransfer.files]. *)
Definition handleDrop (files : list File) (w : World) : World :=
  let w := with_page (setIsDragging false) w in
  match files with
  | file :: _ => handleFileUpload file w
  | [] => w
  end.

(** [handleFileSelect]: [files] is [e.target.files], which may be [null]. *)
Definition handleFileSelect (files : option (list File)) (w : World) : World :=
  match files with
  | Some (file :: _) => handleFileUpload file w
  | _ => w
  end.

Definition generate_request (u : UploadResponse) : Fetch.Request :=
  {| Fetch.url := "http://localhost:8000/generate-3d/" ++ file_id u;
     Fetch.init :=
       {| Fetch.method := "POST";
          Fetch.headers := [("Content-Type", "application/json")];
          Fetch.body := None |} |}.

(** [handleGenerate3D], up to [await fetch(...)]. *)
Definition handleGenerate3D (w : World) : World :=
  match uploadResult (page w) with
  | None => w
  | Some u =>
      let w := with_page (setIsGenerating3D true) w in
      let w := with_page (setError None) w in
      fetch (AwaitGenerate (generate_request u)) w
  end.

Definition generate_try (o : Fetch.Settled Generate3DResponse) :
  Js.Thrown + option Generate3DResponse :=
  match o with
  | Fetch.Rejected reason => inl reason
  | Fetch.Fulfilled response =>
      if negb (Fetch.ok response) then
        match Fetch.json response with
        | inl t => inl t
        | inr errorData =>
            match Js.property "detail" (Fetch.any errorData) with
            | inl t => inl t
            | inr detail =>
                inl (Js.new_Error
                       (Js.or_else detail
                          (Js.JString
                             ("3D generation failed: "
                              ++ Js.decimal (Fetch.status response)))))
            end
        end
      else
        match Fetch.json response with
        | inl t => inl t
        | inr result => inr (Fetch.result result)
        end
  end.

(** [handleGenerate3D], from the settled fetch to the end of [finally], and
    the effect that follows the render when a result was stored. *)
Definition handleGenerate3D_resume (o : Fetch.Settled Generate3DResponse) (w : World) : World :=
  match generate_try o with
  | inr result =>
      let w := with_page (setGenerate3DResult result) w in
      let w := with_page (setIsGenerating3D false) w in
      generate3DResult_changed w
  | inl err =>
      let w := with_page (setError (Some (Js.message_or "3D generation failed" err))) w in
      with_page (setIsGenerating3D false) w
  end.

(** [resetUpload], on the component state and the ref. *)
Definition resetUpload (s : State) : State :=
  let s := setUploadResult None s in
  let s := setError None s in
  let s := setGenerate3DResult None s in
  let s := setIs3DReady false s in
  let s := setThreeDError None s in
  match fileInputRef s with
  | Some _ => setFileInputRef (Some {| value := "" |}) s
  | None => s
  end.

(** A click on one of the three reset buttons. *)
Definition click_reset (w : World) : World :=
  generate3DResult_changed (with_page resetUpload w).

(** A pending timer goes off. *)
Definition fire (id : nat) (w : World) : option World :=
  match timers w !! id with
  | Some t =>
      Some {| page := validation_callback (captured t) (page w);
              timers := delete id (timers w);
              next_timer := next_timer w;
              effect_cleanup := effect_cleanup w;
              in_flight := in_flight w |}
  | None => None
  end.

(** Removing the [k]-th suspended handler. *)
Definition settle (k : nat) (w : World) : World :=
  {| page := page w; timers := timers w; next_timer := next_timer w;
     effect_cleanup := effect_cleanup w;
     in_flight := take k (in_flight w) ++ drop (S k) (in_flight w) |}.

(** ** Events *)

Inductive Event :=
| DragOver
| DragLeave
| Drop (files : list File)
| FileSelect (files : option (list File))
| ClickStartAnalysis
| ClickReset
| UploadSettles (k : nat) (o : Fetch.Settled UploadResponse)
| GenerationSettles (k : nat) (o : Fetch.Settled Generate3DResponse)
| TimerFires (id : nat).

(** The browser stores the chosen path in the input before [change] fires. *)
Definition choose (files : option (list File)) (s : State) : State :=
  match files, fileInputRef s with
  | Some (file :: _), Some _ =>
      setFileInputRef (Some {| value := "C:\fakepath\" ++ file_name file |}) s
  | _, _ => s
  end.

(** One event: [None] when the page offers no such event in this state (the
    element is not rendered or is disabled, the timer is not pending, no such
    request is in flight). *)
Definition handle (w : World) (e : Event) : option World :=
  match e with
  | DragOver =>
      if dropzone_rendered (page w) then Some (handleDragOver w) else None
  | DragLeave =>
      if dropzone_rendered (page w) then Some (handleDragLeave w) else None
  | Drop files =>
      if dropzone_rendered (page w) then Some (handleDrop files w) else None
  | FileSelect files =>
      if dropzone_rendered (page w) && negb (isUploading (page w))
      then Some (handleFileSelect files (with_page (choose files) w))
      else None
  | ClickStartAnalysis =>
      if upload_card_rendered (page w) && negb (isGenerating3D (page w))
      then Some (handleGenerate3D w) else None
  | ClickReset =>
      if upload_card_rendered (page w) || viewport_card_rendered (page w)
         || error_card_rendered (page w)
      then Some (click_reset w) else None
  | UploadSettles k o =>
      match in_flight w !! k with
      | Some (AwaitUpload _) => Some (handleFileUpload_resume o (settle k w))
      | _ => None
      end
  | GenerationSettles k o =>
      match in_flight w !! k with
      | Some (AwaitGenerate _) => Some (handleGenerate3D_resume o (settle k w))
      | _ => None
      end
  | TimerFires id => fire id w
  end.

(** An event followed by the re-render that attaches or detaches the ref. *)
Definition step (w : World) (e : Event) : option World :=
  with_page attach_ref <$> handle w e.

Fixpoint run (w : World) (es : list Event) : option World :=
  match es with
  | [] => Some w
  | e :: es' =>
      match step w e with
      | Some w' => run w' es'
      | None => None
      end
  end.

Definition reachable (w : World) : Prop :=
  exists es, run initial_world es = Some w.

(** Which of [null] and [undefined] the first missing array of the geometry
    callback is ([vertices] is read before [faces]). *)
Definition missing_array (modelData : ModelData) : option Js.Nullish :=
  match vertices_prop modelData with
  | Js.Missing k => Some k
  | Js.Defined _ =>
      match faces_prop modelData with
      | Js.Missing k => Some k
      | Js.Defined _ => None
      end
  end.

(** The geometry [RockMesh_geometry] returns when [vertices] and [faces] are
    present (see [RockMesh_geometry_returns]). *)
Definition built_geometry (vs fs : list (list Js.number)) (modelData : ModelData) (r : nat) :
  Three.BufferGeometry :=
  {| Three.ref := r;
     Three.position :=
       Some {| Three.array := Js.Float32Array (Js.flat vs); Three.itemSize := 3 |};
     Three.index :=
       Some {| Three.array := Js.Uint32Array (Js.flat fs); Three.itemSize := 1 |};
     Three.color :=
       if present_and_nonempty (colors modelData) then
         Some {| Three.array := Js.Float32Array (Js.flat (default [] (colors modelData)));
                 Three.itemSize := 3 |}
       else None;
     Three.uv :=
       if present_and_nonempty (texture_coords modelData) then
         Some {| Three.array :=
                   Js.Float32Array (Js.flat (default [] (texture_coords modelData)));
                 Three.itemSize := 2 |}
       else None;
     Three.normals_computed := true |}.

(** ** Example payloads *)

Definition no_metadata : Metadata :=
  {| vertex_count := 0; face_count := 0; original_dimensions := [];
     scale_factor := Js.of_Z 1 |}.

(** [vertices=[[0,0,0],[1,0,0],[0,1,0]]], [faces=[[0,1,2]]], no colors, no
    texture coordinates. *)
Definition triangle_payload : ModelData :=
  {| vertices_prop := Js.Defined [ [Js.of_Z 0; Js.of_Z 0; Js.of_Z 0];
                        [Js.of_Z 1; Js.of_Z 0; Js.of_Z 0];
                        [Js.of_Z 0; Js.of_Z 1; Js.of_Z 0] ];
     faces_prop := Js.Defined [ [Js.of_Z 0; Js.of_Z 1; Js.of_Z 2] ];
     texture_coords_prop := Js.Missing Js.Undefined;
     colors_prop := Js.Missing Js.Undefined;
     metadata := no_metadata |}.

(** The triangle with its first vertex moved to x = 0.1 (the binary64 nearest
    to it). *)
Definition tenth_payload : ModelData :=
  {| vertices_prop := Js.Defined [ [number_0_1; Js.of_Z 0; Js.of_Z 0];
                        [Js.of_Z 1; Js.of_Z 0; Js.of_Z 0];
                        [Js.of_Z 0; Js.of_Z 1; Js.of_Z 0] ];
     faces_prop := Js.Defined [ [Js.of_Z 0; Js.of_Z 1; Js.of_Z 2] ];
     texture_coords_prop := Js.Missing Js.Undefined;
     colors_prop := Js.Missing Js.Undefined;
     metadata := no_metadata |}.

(** The triangle with one colour per vertex. *)
Definition colored_vertices : list (list Js.number) :=
  [ [Js.of_Z 0; Js.of_Z 0; Js.of_Z 0];
    [Js.of_Z 1; Js.of_Z 0; Js.of_Z 0];
    [Js.of_Z 0; Js.of_Z 1; Js.of_Z 0] ].

Definition colored_colors : list (list Js.number) :=
  [ [Js.of_Z 1; Js.of_Z 0; Js.of_Z 0];
    [Js.of_Z 0; Js.of_Z 1; Js.of_Z 0];
    [Js.of_Z 0; Js.of_Z 0; Js.of_Z 1] ].

Definition colored_payload : ModelData :=
  {| vertices_prop := Js.Defined colored_vertices;
     faces_prop := Js.Defined [ [Js.of_Z 0; Js.of_Z 1; Js.of_Z 2] ];
     texture_coords_prop := Js.Missing Js.Undefined;
     colors_prop := Js.Defined colored_colors;
     metadata := no_metadata |}.

(** One vertex and no face. *)
Definition faceless_payload : ModelData :=
  {| vertices_prop := Js.Defined [ [Js.of_Z 0; Js.of_Z 0; Js.of_Z 0] ];
     faces_prop := Js.Defined [];
     texture_coords_prop := Js.Missing Js.Undefined;
     colors_prop := Js.Missing Js.Undefined;
     metadata := no_metadata |}.

(** Outcomes of two invocations agree on the buffers. *)
Definition same_buffers (r1 r2 : Js.Thrown + Three.BufferGeometry) : Prop :=
  match r1, r2 with
  | inr g1, inr g2 =>
      Three.position g1 = Three.position g2
      /\ Three.index g1 = Three.index g2
      /\ Three.color g1 = Three.color g2
      /\ Three.uv g1 = Three.uv g2
  | inl e1, inl e2 => e1 = e2
  | _, _ => False
  end.

(** ** Example requests and responses *)

Definition rock_jpg : File :=
  {| file_name := "rock.jpg"; file_size := 2048; file_type := "image/jpeg" |}.

Definition pebble_png : File :=
  {| file_name := "pebble.png"; file_size := 512; file_type := "image/png" |}.

Definition uploaded_abc123 : UploadResponse :=
  {| success := true; message := "File uploaded"; file_id := "abc123";
     filename := "rock.jpg"; size := 2048; content_type := "image/jpeg";
     upload_time := "2025-01-01T00:00:00" |}.

(** What the interface [UploadResponse] reads in a body that is not an upload
    result (no field set). *)
Definition no_upload_fields : UploadResponse :=
  {| success := false; message := ""; file_id := ""; filename := ""; size := 0;
     content_type := ""; upload_time := "" |}.

Definition generated (modelData : ModelData) : Generate3DResponse :=
  {| g_success := true; g_message := "3D model generated"; g_file_id := "abc123";
     model_data_prop := Js.Defined modelData;
     processing_info :=
       {| depth_estimation := "MiDaS"; device_used := "cpu";
          mesh_generation := "grid" |};
     generation_time := "2025-01-01T00:00:01";
     summary :=
       {| summary_vertex_count := 0; summary_face_count := 0;
          has_texture := false; has_colors := false;
          bbox_min := []; bbox_max := [] |} |}.

(** The JSON text of a typed value, for building bodies. *)
Class ToJson (T : Type) := to_json : T -> Js.Json.

Definition json_of_N (n : N) : Js.Json := Js.JNumber (Js.of_Z (Z.of_N n)).

Definition json_of_numbers (xs : list Js.number) : Js.Json :=
  Js.JArray (map Js.JNumber xs).

Definition json_of_rows (rows : list (list Js.number)) : Js.Json :=
  Js.JArray (map json_of_numbers rows).

(** A property that is a value, [null], or left out. *)
Definition json_field {A} (name : string) (encode : A -> Js.Json) (m : Js.Maybe A) :
  list (string * Js.Json) :=
  match m with
  | Js.Defined a => [(name, encode a)]
  | Js.Missing Js.Null => [(name, Js.JNull)]
  | Js.Missing Js.Undefined => []
  end.

#[global] Instance UploadResponse_json : ToJson UploadResponse :=
  fun r =>
    Js.JObject
      [ ("success", Js.JBool (success r));
        ("message", Js.JString (message r));
        ("file_id", Js.JString (file_id r));
        ("filename", Js.JString (filename r));
        ("size", json_of_N (size r));
        ("content_type", Js.JString (content_type r));
        ("upload_time", Js.JString (upload_time r)) ].

Definition json_of_model_data (modelData : ModelData) : Js.Json :=
  Js.JObject
    (json_field "vertices" json_of_rows (vertices_prop modelData)
     ++ json_field "faces" json_of_rows (faces_prop modelData)
     ++ json_field "texture_coords" json_of_rows (texture_coords_prop modelData)
     ++ json_field "colors" json_of_rows (colors_prop modelData)
     ++ [ ("metadata",
           Js.JObject
             [ ("vertex_count", json_of_N (vertex_count (metadata modelData)));
               ("face_count", json_of_N (face_count (metadata modelData)));
               ("original_dimensions",
                json_of_numbers (original_dimensions (metadata modelData)));
               ("scale_factor", Js.JNumber (scale_factor (metadata modelData))) ]) ]).

#[global] Instance Generate3DResponse_json : ToJson Generate3DResponse :=
  fun r =>
    Js.JObject
      ([ ("success", Js.JBool (g_success r));
         ("message", Js.JString (g_message r));
         ("file_id", Js.JString (g_file_id r)) ]
       ++ json_field "model_data" json_of_model_data (model_data_prop r)
       ++ [ ("processing_info",
             Js.JObject
               [ ("depth_estimation", Js.JString (depth_estimation (processing_info r)));
                 ("device_used", Js.JString (device_used (processing_info r)));
                 ("mesh_generation", Js.JString (mesh_generation (processing_info r))) ]);
            ("generation_time", Js.JString (generation_time r));
            ("summary",
             Js.JObject
               [ ("vertex_count", json_of_N (summary_vertex_count (summary r)));
                 ("face_count", json_of_N (summary_face_count (summary r)));
                 ("has_texture", Js.JBool (has_texture (summary r)));
                 ("has_colors", Js.JBool (has_colors (summary r)));
                 ("bbox_min", json_of_numbers (bbox_min (summary r)));
                 ("bbox_max", json_of_numbers (bbox_max (summary r))) ]) ]).

(** A 2xx response whose body is the JSON of [v]. *)
Definition ok_response {T} `{ToJson T} (v : T) : Fetch.Settled T :=
  Fetch.Fulfilled
    {| Fetch.status := 200;
       Fetch.json := inr {| Fetch.any := to_json v; Fetch.annotated := v |} |}.

(** The object [{"detail": d}]. *)
Definition detail_object (d : Js.Json) : Js.Json := Js.JObject [("detail", d)].

(** A response with the given status whose body is [errorData]. *)
Definition error_response (status : N) (errorData : Js.Json) :
  Fetch.Settled UploadResponse :=
  Fetch.Fulfilled
    {| Fetch.status := status;
       Fetch.json :=
         inr {| Fetch.any := errorData; Fetch.annotated := no_upload_fields |} |}.

(** A 200 whose body is JSON [null]. *)
Definition ok_null_response : Fetch.Settled UploadResponse :=
  Fetch.Fulfilled
    {| Fetch.status := 200;
       Fetch.json :=
         inr {| Fetch.any := Js.JNull; Fetch.annotated := no_upload_fields |} |}.

(** A 502 whose body is an HTML page: [response.json()] throws. *)
Definition bad_gateway_html : Fetch.Settled UploadResponse :=
  Fetch.Fulfilled
    {| Fetch.status := 502;
       Fetch.json := inl (Js.ErrorObject "Unexpected token < in JSON at position 0") |}.

(** ** Timer bookkeeping *)

(** The part of a world the validation timers depend on: the stored result,
    the pending timers, the next timer id, the registered cleanup. *)
Definition TimerView : Type :=
  option Generate3DResponse * gmap nat Timeout * nat * option nat.

Definition timer_view (w : World) : TimerView :=
  (generate3DResult (page w), timers w, next_timer w, effect_cleanup w).

(** Every pending timer is the one the registered cleanup will clear and
    validates the stored result; timer ids are below the next id. *)
Definition tracks (v : TimerView) : Prop :=
  let '(x, tm, n, c) := v in
  (forall id t, tm !! id = Some t -> c = Some id /\ x = Some (captured t))
  /\ (forall id, c = Some id -> (id < n)%nat).

Definition timers_track_result (w : World) : Prop := tracks (timer_view w).

(** No timer with an id below [b] is pending, and none will be created. *)
Definition none_pending_below (b : nat) (v : TimerView) : Prop :=
  let '(_, tm, n, _) := v in
  (b <= n)%nat /\ forall id, (id < b)%nat -> tm !! id = None.

(** [clearTimeout] of the registered cleanup, on the timer table. *)
Definition cleared (tm : gmap nat Timeout) (c : option nat) : gmap nat Timeout :=
  match c with Some t => delete t tm | None => tm end.

(** The view after [generate3DResult_changed], from the view before. *)
Definition changed_view (v : TimerView) : TimerView :=
  let '(x, tm, n, c) := v in
  match x with
  | Some r =>
      if truthy (model_data r)
      then (x, <[n := {| captured := r; delay := 500 |}]> (cleared tm c), S n, Some n)
      else (x, cleared tm c, n, None)
  | None => (x, cleared tm c, n, None)
  end.

(** ** Pending requests and coherence of the page *)

Definition is_upload (s : Suspended) : bool :=
  match s with AwaitUpload _ => true | AwaitGenerate _ => false end.

Definition is_generation (s : Suspended) : bool :=
  match s with AwaitGenerate _ => true | AwaitUpload _ => false end.

(** Upload and generation requests that have not settled yet. *)
Definition pending_uploads (w : World) : nat :=
  length (List.filter is_upload (in_flight w)).

Definition pending_generations (w : World) : nat :=
  length (List.filter is_generation (in_flight w)).

(** What holds of the page after any sequence of events (see
    [reachable_coherent]). *)
Record coherent (w : World) : Prop := {
  coh_tracks : timers_track_result w;
  coh_pending :
    forall id t, timers w !! id = Some t ->
      delay t = 500%N
      /\ truthy (model_data (captured t)) = true
      /\ is3DReady (page w) = false
      /\ threeDError (page w) = None;
  coh_no_result :
    generate3DResult (page w) = None ->
    is3DReady (page w) = false /\ threeDError (page w) = None;
  coh_generating :
    isGenerating3D (page w) = true -> generate3DResult (page w) = None;
  coh_generations :
    pending_generations w = if isGenerating3D (page w) then 1%nat else 0%nat;
  coh_ready :
    is3DReady (page w) = true ->
    exists r, generate3DResult (page w) = Some r
              /\ validate r = inr tt
              /\ threeDError (page w) = None;
  coh_error :
    forall m, threeDError (page w) = Some m ->
      m = "Invalid model data structure"
      /\ is3DReady (page w) = false
      /\ exists r, generate3DResult (page w) = Some r
                   /\ validate r = inl (Js.ErrorObject m);
  coh_uploading :
    isUploading (page w) = true -> (1 <= pending_uploads w)%nat
}.

(** Two worlds that agree on everything [coherent] reads. *)
Definition same_core (w w' : World) : Prop :=
  isUploading (page w') = isUploading (page w)
  /\ isGenerating3D (page w') = isGenerating3D (page w)
  /\ generate3DResult (page w') = generate3DResult (page w)
  /\ is3DReady (page w') = is3DReady (page w)
  /\ threeDError (page w') = threeDError (page w)
  /\ timers w' = timers w
  /\ next_timer w' = next_timer w
  /\ effect_cleanup w' = effect_cleanup w
  /\ in_flight w' = in_flight w.

(** ** More example payloads and responses *)

(** 0.5 as binary64. *)
Definition number_0_5 : Js.number := S754_finite false 4503599627370496 (-53).

(** The triangle with one texture coordinate per vertex. *)
Definition textured_coords : list (list Js.number) :=
  [ [Js.of_Z 0; Js.of_Z 0];
    [Js.of_Z 1; Js.of_Z 0];
    [number_0_5; Js.of_Z 1] ].

Definition textured_payload : ModelData :=
  {| vertices_prop := Js.Defined colored_vertices;
     faces_prop := Js.Defined [ [Js.of_Z 0; Js.of_Z 1; Js.of_Z 2] ];
     texture_coords_prop := Js.Defined textured_coords;
     colors_prop := Js.Missing Js.Undefined;
     metadata := no_metadata |}.

(** A face whose entries are -1, 2^32 + 1 and 2. *)
Definition wrapping_payload : ModelData :=
  {| vertices_prop := Js.Defined colored_vertices;
     faces_prop := Js.Defined [ [Js.of_Z (-1); Js.of_Z 4294967297; Js.of_Z 2] ];
     texture_coords_prop := Js.Missing Js.Undefined;
     colors_prop := Js.Missing Js.Undefined;
     metadata := no_metadata |}.

(** Vertices without faces, and vertices that are empty. *)
Definition no_faces_payload : ModelData :=
  {| vertices_prop := Js.Defined colored_vertices;
     faces_prop := Js.Missing Js.Undefined;
     texture_coords_prop := Js.Missing Js.Undefined;
     colors_prop := Js.Missing Js.Undefined;
     metadata := no_metadata |}.

Definition empty_vertices_payload : ModelData :=
  {| vertices_prop := Js.Defined [];
     faces_prop := Js.Defined [ [Js.of_Z 0; Js.of_Z 1; Js.of_Z 2] ];
     texture_coords_prop := Js.Missing Js.Undefined;
     colors_prop := Js.Missing Js.Undefined;
     metadata := no_metadata |}.


(** A generation response that carries no [model_data]. *)
Definition generated_without_model : Generate3DResponse :=
  {| g_success := true; g_message := "3D model generated"; g_file_id := "abc123";
     model_data_prop := Js.Missing Js.Undefined;
     processing_info :=
       {| depth_estimation := "MiDaS"; device_used := "cpu";
          mesh_generation := "grid" |};
     generation_time := "2025-01-01T00:00:01";
     summary :=
       {| summary_vertex_count := 0; summary_face_count := 0;
          has_texture := false; has_colors := false;
          bbox_min := []; bbox_max := [] |} |}.

(** A generation response with the given status whose body is [errorData]. *)
Definition generation_error_response (status : N) (errorData : Js.Json) :
  Fetch.Settled Generate3DResponse :=
  Fetch.Fulfilled
    {| Fetch.status := status;
       Fetch.json :=
         inr {| Fetch.any := errorData; Fetch.annotated := generated_without_model |} |}.

(** The events up to a stored result for [modelData], and up to its
    validation. *)
Definition until_stored (modelData : ModelData) : list Event :=
  [ Drop [rock_jpg];
    UploadSettles 0 (ok_response uploaded_abc123);
    ClickStartAnalysis;
    GenerationSettles 0 (ok_response (generated modelData)) ].

Definition until_validated (modelData : ModelData) : list Event :=
  until_stored modelData ++ [TimerFires 0].

(* ================================================================== *)
(** * Properties *)

(** ** Lists and numbers *)

Section Flat.
Context {A : Type}.

Lemma flat_length_uniform (n : nat) (xss : list (list A)) :
  Forall (fun r => length r = n) xss ->
  length (Js.flat xss) = (n * length xss)%nat.
Proof.
  unfold Js.flat. induction 1 as [|r rest Hr _ IH]; simpl.
  - lia.
  - rewrite length_app, IH, Hr. lia.
Qed.

Lemma flat_lookup_uniform (n : nat) (xss : list (list A)) (i k : nat) :
  Forall (fun r => length r = n) xss ->
  (k < n)%nat ->
  Js.flat xss !! (n * i + k)%nat = xss !! i ≫= (fun r => r !! k).
Proof.
  unfold Js.flat. intros Hall Hk. revert i.
  induction Hall as [|r rest Hr _ IH]; intros i.
  - reflexivity.
  - destruct i as [|i]; simpl.
    + replace (n * 0 + k)%nat with k by lia.
      apply lookup_app_l. lia.
    + replace (n * S i + k)%nat with (length r + (n * i + k))%nat by lia.
      rewrite lookup_app_r by lia.
      replace (length r + (n * i + k) - length r)%nat with (n * i + k)%nat by lia.
      apply IH.
Qed.
End Flat.

Lemma ToUint32_integer (x : Js.number) (n : Z) :
  Js.integer_value x = Some n -> Js.ToUint32 x = n mod 2 ^ 32.
Proof.
  destruct x as [s|s| |s m e]; simpl; try discriminate.
  - intros [= <-]. reflexivity.
  - destruct (0 <=? e).
    + intros [= <-]. reflexivity.
    + destruct (Z.pos m mod 2 ^ (- e) =? 0); [|discriminate].
      intros [= <-]. reflexivity.
Qed.

Lemma ToUint32_index (x : Js.number) (n : Z) :
  Js.integer_value x = Some n -> 0 <= n < 2 ^ 32 -> Js.ToUint32 x = n.
Proof.
  intros Hx Hn. rewrite (ToUint32_integer x n Hx). apply Z.mod_small, Hn.
Qed.

(** ** [RockMesh] *)

Lemma to_option_Some {A} (m : Js.Maybe A) (a : A) :
  Js.to_option m = Some a -> m = Js.Defined a.
Proof. destruct m; [intros [= ->]; reflexivity|discriminate]. Qed.

Lemma to_option_None {A} (m : Js.Maybe A) :
  Js.to_option m = None -> exists k, m = Js.Missing k.
Proof. destruct m as [a|k]; [discriminate|]. intros _. exists k. reflexivity. Qed.

Lemma RockMesh_geometry_returns (modelData : ModelData) vs fs (h : Js.Heap) :
  vertices modelData = Some vs ->
  faces modelData = Some fs ->
  RockMesh_geometry modelData h =
    (inr (built_geometry vs fs modelData (Js.next_ref h)),
     {| Js.next_ref := S (Js.next_ref h) |}).
Proof.
  intros Hv Hf. unfold RockMesh_geometry, built_geometry, Js.bind, Js.new_object.
  rewrite (to_option_Some _ _ Hv), (to_option_Some _ _ Hf). simpl.
  destruct (present_and_nonempty (colors modelData)),
    (present_and_nonempty (texture_coords modelData)); reflexivity.
Qed.

Lemma missing_array_Some (modelData : ModelData) :
  vertices modelData = None \/ faces modelData = None ->
  exists k, missing_array modelData = Some k.
Proof.
  unfold missing_array, vertices, faces.
  destruct (vertices_prop modelData) as [vs|k]; [|intros _; exists k; reflexivity].
  destruct (faces_prop modelData) as [fs|k]; [|intros _; exists k; reflexivity].
  intros [H|H]; discriminate.
Qed.

Lemma RockMesh_geometry_throws (modelData : ModelData) (h : Js.Heap) (k : Js.Nullish) :
  missing_array modelData = Some k ->
  fst (RockMesh_geometry modelData h) = inl (Js.nullish_property k "flat").
Proof.
  unfold missing_array, RockMesh_geometry, Js.bind, Js.new_object.
  destruct (vertices_prop modelData) as [vs|kv]; simpl.
  - destruct (faces_prop modelData) as [fs|kf]; simpl; [discriminate|].
    intros [= ->]. reflexivity.
  - intros [= ->]. reflexivity.
Qed.

(** When an array is missing the callback throws, whichever way it is
    missing. *)
Lemma RockMesh_geometry_fails (modelData : ModelData) (h : Js.Heap) :
  vertices modelData = None \/ faces modelData = None ->
  exists k, fst (RockMesh_geometry modelData h) = inl (Js.nullish_property k "flat")
            /\ missing_array modelData = Some k.
Proof.
  intros Hm. destruct (missing_array_Some modelData Hm) as [k Hk].
  exists k. split; [exact (RockMesh_geometry_throws modelData h k Hk)|exact Hk].
Qed.

(** C3 (as the code has it).  When every vertex and every face has three
    entries, the position buffer holds at index 3*i+k the single-precision
    rounding of vertices[i][k] (the buffer is a Float32Array) and the index
    buffer holds at index 3*j+k the entry faces[j][k] whenever that is an
    integer in [0, 2^32); order is kept and nothing is reordered.  For the
    triangle payload the mesh has 3 positions and 1 triangle, and there every
    position equals its vertex coordinate. *)
Theorem C3_buffers_follow_payload :
  (forall (modelData : ModelData) vs fs (h : Js.Heap),
      vertices modelData = Some vs ->
      faces modelData = Some fs ->
      Forall (fun v => length v = 3%nat) vs ->
      Forall (fun f => length f = 3%nat) fs ->
      exists g positions indices,
        fst (RockMesh_geometry modelData h) = inr g
        /\ Three.position g = Some positions
        /\ Three.index g = Some indices
        /\ Three.itemSize positions = 3%nat
        /\ length (Three.array positions) = (3 * length vs)%nat
        /\ length (Three.array indices) = (3 * length fs)%nat
        /\ (forall i k, (k < 3)%nat ->
              Three.array positions !! (3 * i + k)%nat
              = Js.fround <$> (vs !! i ≫= (fun v => v !! k)))
        /\ (forall j k x n, (k < 3)%nat ->
              fs !! j ≫= (fun f => f !! k) = Some x ->
              Js.integer_value x = Some n -> 0 <= n < 2 ^ 32 ->
              Three.array indices !! (3 * j + k)%nat = Some n))
  /\ (forall h : Js.Heap,
        exists g positions indices,
          fst (RockMesh_geometry triangle_payload h) = inr g
          /\ Three.position g = Some positions
          /\ Three.index g = Some indices
          /\ Some (Three.array positions) = Js.flat <$> vertices triangle_payload
          /\ Three.count positions = 3%nat
          /\ Three.array indices = [0; 1; 2]
          /\ Three.triangle_count g = 1%nat).
Proof.
  split.
  - intros modelData vs fs h Hv Hf Hvs Hfs.
    rewrite (RockMesh_geometry_returns modelData vs fs h Hv Hf).
    exists (built_geometry vs fs modelData (Js.next_ref h)),
      {| Three.array := Js.Float32Array (Js.flat vs); Three.itemSize := 3 |},
      {| Three.array := Js.Uint32Array (Js.flat fs); Three.itemSize := 1 |}.
    cbn [fst Three.array Three.itemSize].
    split; [reflexivity|]. split; [reflexivity|]. split; [reflexivity|].
    split; [reflexivity|].
    unfold Js.Float32Array, Js.Uint32Array.
    rewrite !length_map, (flat_length_uniform 3 vs Hvs), (flat_length_uniform 3 fs Hfs).
    split; [reflexivity|]. split; [reflexivity|]. split.
    + intros i k Hk. rewrite list_lookup_fmap.
      rewrite (flat_lookup_uniform 3 vs i k Hvs Hk). reflexivity.
    + intros j k x n Hk Hx Hint Hn. rewrite list_lookup_fmap.
      rewrite (flat_lookup_uniform 3 fs j k Hfs Hk), Hx. simpl.
      f_equal. apply ToUint32_index; assumption.
  - intros h.
    rewrite (RockMesh_geometry_returns triangle_payload _ _ h eq_refl eq_refl).
    eexists _, _, _. simpl.
    split; [reflexivity|]. split; [reflexivity|]. split; [reflexivity|].
    repeat split; vm_compute; reflexivity.
Qed.

(** The general part of C3 at the triangle payload: slot 3*1+0 holds the
    rounding of vertices[1][0]. *)
Lemma C3_buffers_follow_payload_witness :
  exists g positions,
    fst (RockMesh_geometry triangle_payload {| Js.next_ref := 0 |}) = inr g
    /\ Three.position g = Some positions
    /\ Three.array positions !! 3%nat = Some (Js.fround (Js.of_Z 1)).
Proof.
  destruct C3_buffers_follow_payload as [general _].
  destruct (general triangle_payload
              [ [Js.of_Z 0; Js.of_Z 0; Js.of_Z 0];
                [Js.of_Z 1; Js.of_Z 0; Js.of_Z 0];
                [Js.of_Z 0; Js.of_Z 1; Js.of_Z 0] ]
              [ [Js.of_Z 0; Js.of_Z 1; Js.of_Z 2] ]
              {| Js.next_ref := 0 |} eq_refl eq_refl)
    as (g & positions & indices & Hg & Hp & _ & _ & _ & _ & Hpos & _).
  - repeat constructor.
  - repeat constructor.
  - exists g, positions. split; [exact Hg|]. split; [exact Hp|].
    exact (Hpos 1%nat 0%nat ltac:(lia)).
Defined.

(** C3 as stated fails: a vertex coordinate that is not a single-precision
    value is not found unchanged in the position buffer.  With
    vertices=[[0.1,0,0],[1,0,0],[0,1,0]] the slot 3*0+0 holds
    0.100000001490116..., not vertices[0][0]. *)
Lemma C3_position_not_verbatim :
  exists g positions,
    fst (RockMesh_geometry tenth_payload {| Js.next_ref := 0 |}) = inr g
    /\ Three.position g = Some positions
    /\ Three.array positions !! (3 * 0 + 0)%nat
       = Some (S754_finite false 7205759511166976 (-56))
    /\ Three.array positions !! (3 * 0 + 0)%nat
       <> (vertices tenth_payload ≫= fun vs => vs !! 0%nat ≫= fun v => v !! 0%nat).
Proof.
  eexists _, _. split; [reflexivity|]. split; [reflexivity|].
  split; [vm_compute; reflexivity|].
  vm_compute. discriminate.
Qed.

Lemma present_and_nonempty_false {A} (a : option (list A)) :
  present_and_nonempty a = false <-> a = None \/ a = Some [].
Proof.
  destruct a as [[|x xs]|]; simpl; split; intros H;
    try reflexivity; try discriminate; auto;
    destruct H as [H|H]; discriminate.
Qed.

Lemma RockMesh_material_returns (modelData : ModelData) (h : Js.Heap) :
  exists m,
    RockMesh_material modelData h = (inr m, {| Js.next_ref := S (Js.next_ref h) |})
    /\ Three.material_ref m = Js.next_ref h
    /\ Three.vertexColors m = present_and_nonempty (colors modelData)
    /\ Three.material_color m
       = (if present_and_nonempty (colors modelData) then 0xffffff else 0x8B7355)
    /\ Three.side m = Three.DoubleSide.
Proof. eexists. repeat split. Qed.

(** C4.  When [colors] is omitted or empty the material has the fallback
    colour 0x8B7355 with vertex colours off and the geometry carries no colour
    attribute; when [colors] is non-empty, with one 3-tuple per vertex, vertex
    colours are on and the colour attribute has 3 * (number of vertices)
    entries. *)
Theorem C4_colors_select_material_and_buffer :
  (forall (modelData : ModelData) (h : Js.Heap),
      colors modelData = None \/ colors modelData = Some [] ->
      (exists m h',
          RockMesh_material modelData h = (inr m, h')
          /\ Three.material_color m = 0x8B7355
          /\ Three.vertexColors m = false)
      /\ (forall vs fs, vertices modelData = Some vs -> faces modelData = Some fs ->
            exists g, fst (RockMesh_geometry modelData h) = inr g)
      /\ (forall g, fst (RockMesh_geometry modelData h) = inr g -> Three.color g = None))
  /\ (forall (modelData : ModelData) vs fs cs (h : Js.Heap),
        vertices modelData = Some vs ->
        faces modelData = Some fs ->
        colors modelData = Some cs ->
        cs <> [] ->
        length cs = length vs ->
        Forall (fun c => length c = 3%nat) cs ->
        (exists m h',
            RockMesh_material modelData h = (inr m, h')
            /\ Three.vertexColors m = true)
        /\ (exists g buffer,
              fst (RockMesh_geometry modelData h) = inr g
              /\ Three.color g = Some buffer
              /\ Three.array buffer = Js.Float32Array (Js.flat cs)
              /\ length (Three.array buffer) = (3 * length vs)%nat)).
Proof.
  split.
  - intros modelData h Hc.
    apply present_and_nonempty_false in Hc.
    destruct (RockMesh_material_returns modelData h) as (m & Hm & _ & Hvc & Hcol & _).
    rewrite Hc in Hvc, Hcol.
    split; [exists m; eexists; split; [exact Hm|split; assumption]|]. split.
    + intros vs fs Hv Hf.
      rewrite (RockMesh_geometry_returns modelData vs fs h Hv Hf). eexists; reflexivity.
    + intros g Hg.
      destruct (vertices modelData) as [vs|] eqn:Hv;
        [destruct (faces modelData) as [fs|] eqn:Hf|].
      * rewrite (RockMesh_geometry_returns modelData vs fs h Hv Hf) in Hg.
        injection Hg as <-. cbn [built_geometry Three.color]. rewrite Hc. reflexivity.
      * destruct (RockMesh_geometry_fails modelData h (or_intror Hf)) as (k & Hk & _).
        rewrite Hk in Hg. discriminate.
      * destruct (RockMesh_geometry_fails modelData h (or_introl Hv)) as (k & Hk & _).
        rewrite Hk in Hg. discriminate.
  - intros modelData vs fs cs h Hv Hf Hc Hne Hlen Hall.
    assert (Hp : present_and_nonempty (colors modelData) = true).
    { rewrite Hc. destruct cs; [contradiction|reflexivity]. }
    destruct (RockMesh_material_returns modelData h) as (m & Hm & _ & Hvc & _).
    rewrite Hp in Hvc.
    split; [exists m; eexists; split; [exact Hm|assumption]|].
    rewrite (RockMesh_geometry_returns modelData vs fs h Hv Hf).
    exists (built_geometry vs fs modelData (Js.next_ref h)),
      {| Three.array := Js.Float32Array (Js.flat cs); Three.itemSize := 3 |}.
    cbn [fst built_geometry Three.color Three.array]. rewrite Hp, Hc.
    split; [reflexivity|]. split; [reflexivity|]. split; [reflexivity|].
    unfold Js.Float32Array. rewrite length_map, (flat_length_uniform 3 cs Hall), Hlen.
    reflexivity.
Qed.

(** C4 at the triangle without colours and at the triangle with one colour
    per vertex. *)
Lemma C4_colors_select_material_and_buffer_witness :
  (exists m h',
      RockMesh_material triangle_payload {| Js.next_ref := 0 |} = (inr m, h')
      /\ Three.material_color m = 0x8B7355
      /\ Three.vertexColors m = false)
  /\ (exists g buffer,
        fst (RockMesh_geometry colored_payload {| Js.next_ref := 0 |}) = inr g
        /\ Three.color g = Some buffer
        /\ Three.array buffer = Js.Float32Array (Js.flat colored_colors)
        /\ length (Three.array buffer) = (3 * 3)%nat).
Proof.
  destruct C4_colors_select_material_and_buffer as [plain colored].
  split.
  - apply (plain triangle_payload {| Js.next_ref := 0 |}). left. reflexivity.
  - apply (colored colored_payload colored_vertices [ [Js.of_Z 0; Js.of_Z 1; Js.of_Z 2] ]
             colored_colors {| Js.next_ref := 0 |});
      [reflexivity | reflexivity | reflexivity | discriminate | reflexivity
      | repeat constructor].
Defined.

(** C5.  Building the geometry twice from the same payload, the second time
    on the heap the first invocation left behind, gives position and index
    buffers that are equal (same length, same entries in the same order);
    only the identity of the two geometry objects differs.  The same holds
    from any two heaps. *)
Theorem C5_assembler_deterministic (modelData : ModelData) (h : Js.Heap) :
  (exists r1 h1 r2 h2,
      RockMesh_geometry modelData h = (r1, h1)
      /\ RockMesh_geometry modelData h1 = (r2, h2)
      /\ same_buffers r1 r2
      /\ (forall g1 g2, r1 = inr g1 -> r2 = inr g2 ->
            Three.ref g1 <> Three.ref g2
            /\ (forall p1 p2 i1 i2,
                  Three.position g1 = Some p1 -> Three.position g2 = Some p2 ->
                  Three.index g1 = Some i1 -> Three.index g2 = Some i2 ->
                  length (Three.array p1) = length (Three.array p2)
                  /\ length (Three.array i1) = length (Three.array i2)
                  /\ (forall n, Three.array p1 !! n = Three.array p2 !! n)
                  /\ (forall n, Three.array i1 !! n = Three.array i2 !! n))))
  /\ (forall h' : Js.Heap,
        same_buffers (fst (RockMesh_geometry modelData h))
                     (fst (RockMesh_geometry modelData h'))).
Proof.
  assert (Hany : forall h1 h2,
             same_buffers (fst (RockMesh_geometry modelData h1))
                          (fst (RockMesh_geometry modelData h2))).
  { intros h1 h2.
    destruct (vertices modelData) as [vs|] eqn:Hv;
      [destruct (faces modelData) as [fs|] eqn:Hf|].
    - rewrite !(RockMesh_geometry_returns modelData vs fs _ Hv Hf).
      simpl. repeat split.
    - destruct (missing_array_Some modelData (or_intror Hf)) as [k Hk].
      rewrite !(RockMesh_geometry_throws modelData _ k Hk). reflexivity.
    - destruct (missing_array_Some modelData (or_introl Hv)) as [k Hk].
      rewrite !(RockMesh_geometry_throws modelData _ k Hk). reflexivity. }
  split; [|intros h'; apply Hany].
  destruct (RockMesh_geometry modelData h) as [r1 h1] eqn:E1.
  destruct (RockMesh_geometry modelData h1) as [r2 h2] eqn:E2.
  exists r1, h1, r2, h2.
  split; [reflexivity|]. split; [exact E2|].
  assert (Hsame : same_buffers r1 r2).
  { specialize (Hany h h1). rewrite E1, E2 in Hany. exact Hany. }
  split; [exact Hsame|].
  intros g1 g2 -> ->. split.
  - destruct (vertices modelData) as [vs|] eqn:Hv;
      [destruct (faces modelData) as [fs|] eqn:Hf|].
    + rewrite (RockMesh_geometry_returns modelData vs fs h Hv Hf) in E1.
      injection E1 as <- <-.
      rewrite (RockMesh_geometry_returns modelData vs fs _ Hv Hf) in E2.
      injection E2 as <- <-. simpl. lia.
    + destruct (RockMesh_geometry_fails modelData h (or_intror Hf)) as (k & T & _).
      rewrite E1 in T. discriminate.
    + destruct (RockMesh_geometry_fails modelData h (or_introl Hv)) as (k & T & _).
      rewrite E1 in T. discriminate.
  - destruct Hsame as (Hp & Hi & _).
    intros p1 p2 i1 i2 Hp1 Hp2 Hi1 Hi2.
    rewrite Hp1, Hp2 in Hp. rewrite Hi1, Hi2 in Hi.
    injection Hp as ->. injection Hi as ->. repeat split.
Qed.

(** C5 at the triangle payload: two geometries, equal buffers, distinct
    objects. *)
Lemma C5_assembler_deterministic_witness :
  exists g1 g2 h1 h2,
    RockMesh_geometry triangle_payload {| Js.next_ref := 0 |} = (inr g1, h1)
    /\ RockMesh_geometry triangle_payload h1 = (inr g2, h2)
    /\ Three.position g1 = Three.position g2
    /\ Three.index g1 = Three.index g2
    /\ Three.ref g1 <> Three.ref g2.
Proof.
  destruct (C5_assembler_deterministic triangle_payload {| Js.next_ref := 0 |})
    as [(r1 & h1 & r2 & h2 & E1 & E2 & Hsame & Hrefs) _].
  rewrite (RockMesh_geometry_returns triangle_payload _ _ _ eq_refl eq_refl) in E1.
  injection E1 as <- <-.
  rewrite (RockMesh_geometry_returns triangle_payload _ _ _ eq_refl eq_refl) in E2.
  injection E2 as <- <-.
  eexists _, _, _, _.
  split; [reflexivity|]. split; [reflexivity|].
  destruct Hsame as (Hp & Hi & _).
  split; [exact Hp|]. split; [exact Hi|].
  exact (proj1 (Hrefs _ _ eq_refl eq_refl)).
Defined.

(** ** The validation effect *)

Lemma validate_defined (r : Generate3DResponse) (modelData : ModelData) :
  model_data r = Some modelData ->
  validate r
  = if missing (vertices modelData) || missing (faces modelData)
       || (length (default [] (vertices modelData)) =? 0)%nat
    then inl (Js.ErrorObject "Invalid model data structure")
    else inr tt.
Proof. intros H. unfold validate. rewrite (to_option_Some _ _ H). reflexivity. Qed.

Lemma validate_missing (r : Generate3DResponse) :
  model_data r = None ->
  exists k, validate r = inl (Js.nullish_property k "vertices").
Proof.
  intros H. destruct (to_option_None _ H) as [k Hk].
  exists k. unfold validate. rewrite Hk. reflexivity.
Qed.

Lemma validate_passes_iff (r : Generate3DResponse) :
  validate r = inr tt <->
  exists modelData vs fs,
    model_data r = Some modelData
    /\ vertices modelData = Some vs /\ vs <> []
    /\ faces modelData = Some fs.
Proof.
  split.
  - destruct (model_data r) as [md|] eqn:Hmd.
    + rewrite (validate_defined r md Hmd).
      destruct (vertices md) as [[|v vs]|] eqn:Hv;
        destruct (faces md) as [fs|] eqn:Hf; simpl; try discriminate.
      intros _. exists md, (v :: vs), fs.
      split; [reflexivity|]. split; [exact Hv|]. split; [discriminate|exact Hf].
    + destruct (validate_missing r Hmd) as [k ->]. discriminate.
  - intros (md & vs & fs & Hmd & Hv & Hne & Hf).
    rewrite (validate_defined r md Hmd), Hv, Hf.
    destruct vs; [contradiction|reflexivity].
Qed.

Lemma validate_fails (r : Generate3DResponse) (modelData : ModelData) :
  model_data r = Some modelData ->
  validate r = inr tt
  \/ validate r = inl (Js.ErrorObject "Invalid model data structure").
Proof.
  intros H. rewrite (validate_defined r modelData H).
  destruct (missing _ || missing _ || _); auto.
Qed.

(** After a result with model data is stored, the timer scheduled for it is
    pending with the 500 ms delay; when it goes off, the page is ready exactly
    when [vertices] and [faces] are present and [vertices] is non-empty, and
    otherwise shows "Invalid model data structure". *)
Lemma validation_outcome (w : World) (o : Fetch.Settled Generate3DResponse)
      (r : Generate3DResponse) (modelData : ModelData) :
  generate_try o = inr (Some r) ->
  model_data r = Some modelData ->
  let w1 := handleGenerate3D_resume o w in
  let t := next_timer w in
  timers w1 !! t = Some {| captured := r; delay := 500 |}
  /\ is3DReady (page w1) = false
  /\ threeDError (page w1) = None
  /\ exists w2,
       fire t w1 = Some w2
       /\ ((exists vs fs, vertices modelData = Some vs /\ vs <> []
                          /\ faces modelData = Some fs)
           -> is3DReady (page w2) = true /\ threeDError (page w2) = None)
       /\ (~ (exists vs fs, vertices modelData = Some vs /\ vs <> []
                            /\ faces modelData = Some fs)
           -> is3DReady (page w2) = false
              /\ threeDError (page w2) = Some "Invalid model data structure").
Proof.
  intros Ho Hmd. cbv zeta.
  unfold handleGenerate3D_resume. rewrite Ho.
  unfold generate3DResult_changed, run_effect.
  assert (Hst : forall w0, generate3DResult (page (run_cleanup w0)) = generate3DResult (page w0)
                      /\ next_timer (run_cleanup w0) = next_timer w0).
  { intros w0. unfold run_cleanup. destruct (effect_cleanup w0); auto. }
  destruct (Hst (with_page (setIsGenerating3D false)
                   (with_page (setGenerate3DResult (Some r)) w))) as [-> ->].
  cbn [with_page page generate3DResult setIsGenerating3D setGenerate3DResult next_timer].
  rewrite Hmd. cbn [truthy timers page next_timer].
  split; [apply lookup_insert_eq|]. split; [reflexivity|]. split; [reflexivity|].
  unfold fire. cbn [timers]. rewrite lookup_insert_eq.
  eexists. split; [reflexivity|].
  cbn [page captured]. unfold validation_callback.
  split.
  - intros (vs & fs & Hv & Hne & Hf).
    assert (Hok : validate r = inr tt).
    { apply validate_passes_iff. exists modelData, vs, fs. auto. }
    rewrite Hok. split; reflexivity.
  - intros Hno.
    destruct (validate_fails r modelData Hmd) as [Hok|Hbad].
    + exfalso. apply Hno. apply validate_passes_iff in Hok.
      destruct Hok as (md & vs & fs & Hmd' & Hv & Hne & Hf).
      rewrite Hmd in Hmd'. injection Hmd' as <-. eauto.
    + rewrite Hbad. split; reflexivity.
Qed.

(** C1 fails on the code for a payload whose [faces] is present but empty:
    from the initial page, an upload, a generation returning one vertex and
    no face, and the validation timer lead to the ready state with the mesh
    view, not to "Invalid model data structure". *)
Theorem C1_empty_faces_reach_ready :
  exists w,
    run initial_world
      [ Drop [rock_jpg];
        UploadSettles 0 (ok_response uploaded_abc123);
        ClickStartAnalysis;
        GenerationSettles 0 (ok_response (generated faceless_payload));
        TimerFires 0 ] = Some w
    /\ is3DReady (page w) = true
    /\ threeDError (page w) = None
    /\ phase (page w) = Ready
    /\ viewport_views (page w) = [MeshView].
Proof.
  eexists. split; [vm_compute; reflexivity|]. repeat split.
Qed.

(** ** The upload handler *)

(** The conversions at some values: numbers print as JavaScript prints them,
    arrays join their elements, a plain object prints as "[object Object]". *)
Lemma ToString_examples :
  Js.ToString (Js.JNumber (Js.of_Z 404)) = inr "404"%string
  /\ Js.ToString (Js.JNumber number_0_5) = inr "0.5"%string
  /\ Js.ToString (Js.JNumber (Js.of_Z (- 10 ^ 21))) = inr "-1e+21"%string
  /\ Js.ToString (Js.JNumber (Js.of_Z (2 ^ 53))) = inr "9007199254740992"%string
  /\ Js.ToString (Js.JBool true) = inr "true"%string
  /\ Js.ToString (Js.JArray [Js.JNull; Js.JString "a"; Js.JArray [Js.JNumber (Js.of_Z 1)]])
     = inr ",a,1"%string
  /\ Js.ToString (Js.JObject [("msg", Js.JString "x")]) = inr "[object Object]"%string
  /\ Js.ToString (Js.JObject [("toString", Js.JNumber (Js.of_Z 1))])
     = inl (Js.ErrorObject "Cannot convert object to primitive value").
Proof. repeat split; vm_compute; reflexivity. Qed.

Lemma ToBoolean_examples :
  Js.ToBoolean Js.JNull = false
  /\ Js.ToBoolean (Js.JString "") = false
  /\ Js.ToBoolean (Js.JNumber (Js.of_Z 0)) = false
  /\ Js.ToBoolean (Js.JBool false) = false
  /\ Js.ToBoolean (Js.JArray []) = true
  /\ Js.ToBoolean (Js.JObject []) = true.
Proof. repeat split; vm_compute; reflexivity. Qed.

Lemma resume_error (o : Fetch.Settled UploadResponse) (w : World) (t : Js.Thrown) :
  upload_try o = inl t ->
  error (page (handleFileUpload_resume o w)) = Some (Js.message_or "Upload failed" t).
Proof. unfold handleFileUpload_resume. intros ->. reflexivity. Qed.

(** The non-2xx branch of the [try] block, once the body has parsed and its
    [detail] has been read. *)
Lemma upload_try_not_ok (response : Fetch.Response UploadResponse)
      (body : Fetch.Body UploadResponse) (detail : option Js.Json) :
  Fetch.ok response = false ->
  Fetch.json response = inr body ->
  Js.property "detail" (Fetch.any body) = inr detail ->
  upload_try (Fetch.Fulfilled response)
  = inl (Js.new_Error
           (Js.or_else detail
              (Js.JString ("Upload failed: " ++ Js.decimal (Fetch.status response))))).
Proof. intros Hok Hj Hd. unfold upload_try. rewrite Hok, Hj, Hd. reflexivity. Qed.

Lemma new_Error_text (v : Js.Json) (text : string) :
  Js.ToString v = inr text -> Js.new_Error v = Js.ErrorObject text.
Proof. unfold Js.new_Error. intros ->. reflexivity. Qed.

Lemma or_else_falsy (detail : option Js.Json) (fallback : Js.Json) :
  detail = None \/ (exists v, detail = Some v /\ Js.ToBoolean v = false) ->
  Js.or_else detail fallback = fallback.
Proof. intros [-> | (v & -> & Hv)]; cbn [Js.or_else]; [|rewrite Hv]; reflexivity. Qed.

Lemma or_else_truthy (v fallback : Js.Json) :
  Js.ToBoolean v = true -> Js.or_else (Some v) fallback = v.
Proof. intros Hv. cbn [Js.or_else]. rewrite Hv. reflexivity. Qed.

Lemma ToBoolean_string (d : string) : d <> "" -> Js.ToBoolean (Js.JString d) = true.
Proof. destruct d; [contradiction|reflexivity]. Qed.

(** C2 (as the code has it).  For a non-2xx upload response whose body parses
    as JSON and is not [null]: the error message is the body's [detail] when
    that is a non-empty string, the string conversion of [detail] when it is
    any other truthy value, and "Upload failed: <status>" when [detail] is
    absent or falsy ([null], [false], 0, the empty string) or the body is not
    an object.  When the body is JSON [null], or does not parse, or the
    conversion of [detail] throws, the message is that of the exception
    thrown.  On a transport failure it is the message of the caught
    exception. *)
Theorem C2_upload_error_message (w : World) :
  (forall response : Fetch.Response UploadResponse,
      Fetch.ok response = false ->
      let w' := handleFileUpload_resume (Fetch.Fulfilled response) w in
      (forall body d,
          Fetch.json response = inr body ->
          Js.property "detail" (Fetch.any body) = inr (Some (Js.JString d)) ->
          d <> "" ->
          error (page w') = Some d)
      /\ (forall body v text,
            Fetch.json response = inr body ->
            Js.property "detail" (Fetch.any body) = inr (Some v) ->
            Js.ToBoolean v = true ->
            Js.ToString v = inr text ->
            error (page w') = Some text)
      /\ (forall body detail,
            Fetch.json response = inr body ->
            Js.property "detail" (Fetch.any body) = inr detail ->
            detail = None \/ (exists v, detail = Some v /\ Js.ToBoolean v = false) ->
            error (page w')
            = Some ("Upload failed: " ++ Js.decimal (Fetch.status response))%string)
      /\ (forall body v m,
            Fetch.json response = inr body ->
            Js.property "detail" (Fetch.any body) = inr (Some v) ->
            Js.ToBoolean v = true ->
            Js.ToString v = inl (Js.ErrorObject m) ->
            error (page w') = Some m)
      /\ (forall body,
            Fetch.json response = inr body ->
            Fetch.any body = Js.JNull ->
            error (page w') = Some "Cannot read properties of null (reading 'detail')")
      /\ (forall m,
            Fetch.json response = inl (Js.ErrorObject m) ->
            error (page w') = Some m))
  /\ (forall m,
        error (page (handleFileUpload_resume (Fetch.Rejected (Js.ErrorObject m)) w))
        = Some m).
Proof.
  split; [|intros m; reflexivity].
  intros response Hok. cbv zeta.
  assert (Htext : forall body v text,
             Fetch.json response = inr body ->
             Js.property "detail" (Fetch.any body) = inr (Some v) ->
             Js.ToBoolean v = true ->
             Js.ToString v = inr text ->
             error (page (handleFileUpload_resume (Fetch.Fulfilled response) w))
             = Some text).
  { intros body v text Hj Hd Hv Ht.
    rewrite (resume_error _ w (Js.ErrorObject text)); [reflexivity|].
    rewrite (upload_try_not_ok response body _ Hok Hj Hd), or_else_truthy by exact Hv.
    rewrite (new_Error_text v text Ht). reflexivity. }
  split; [|split; [exact Htext|split; [|split; [|split]]]].
  - intros body d Hj Hd Hne.
    exact (Htext body (Js.JString d) d Hj Hd (ToBoolean_string d Hne) eq_refl).
  - intros body detail Hj Hd Hfalsy.
    rewrite (resume_error _ w
               (Js.ErrorObject
                  ("Upload failed: " ++ Js.decimal (Fetch.status response))%string));
      [reflexivity|].
    rewrite (upload_try_not_ok response body detail Hok Hj Hd).
    rewrite (or_else_falsy detail _ Hfalsy). reflexivity.
  - intros body v m Hj Hd Hv Ht.
    rewrite (resume_error _ w (Js.ErrorObject m)); [reflexivity|].
    rewrite (upload_try_not_ok response body _ Hok Hj Hd), or_else_truthy by exact Hv.
    unfold Js.new_Error. rewrite Ht. reflexivity.
  - intros body Hj Hnull.
    rewrite (resume_error _ w (Js.nullish_property Js.Null "detail")); [reflexivity|].
    unfold upload_try. rewrite Hok, Hj, Hnull. reflexivity.
  - intros m Hj.
    rewrite (resume_error _ w (Js.ErrorObject m)); [reflexivity|].
    unfold upload_try. rewrite Hok, Hj. reflexivity.
Qed.

(** C2 at a 413 with a [detail], at a 500 without one, at a 422 whose
    [detail] is a number, and at a 500 whose body is [null]. *)
Lemma C2_upload_error_message_witness :
  error (page (handleFileUpload_resume
                 (error_response 413 (detail_object (Js.JString "File too large")))
                 initial_world))
  = Some "File too large"
  /\ error (page (handleFileUpload_resume (error_response 500 (Js.JObject []))
                    initial_world))
     = Some "Upload failed: 500"
  /\ error (page (handleFileUpload_resume
                    (error_response 422 (detail_object (Js.JNumber (Js.of_Z 42))))
                    initial_world))
     = Some "42"
  /\ error (page (handleFileUpload_resume (error_response 500 Js.JNull) initial_world))
     = Some "Cannot read properties of null (reading 'detail')".
Proof.
  destruct (C2_upload_error_message initial_world) as [http _].
  split; [|split; [|split]].
  - destruct (http {| Fetch.status := 413;
                      Fetch.json :=
                        inr {| Fetch.any := detail_object (Js.JString "File too large");
                               Fetch.annotated := no_upload_fields |} |}
                eq_refl) as (Hdetail & _).
    apply (Hdetail _ "File too large" eq_refl eq_refl). discriminate.
  - destruct (http {| Fetch.status := 500;
                      Fetch.json :=
                        inr {| Fetch.any := Js.JObject [];
                               Fetch.annotated := no_upload_fields |} |}
                eq_refl) as (_ & _ & Hfallback & _).
    apply (Hfallback _ None eq_refl eq_refl). left. reflexivity.
  - destruct (http {| Fetch.status := 422;
                      Fetch.json :=
                        inr {| Fetch.any := detail_object (Js.JNumber (Js.of_Z 42));
                               Fetch.annotated := no_upload_fields |} |}
                eq_refl) as (_ & Htext & _).
    apply (Htext _ (Js.JNumber (Js.of_Z 42)) "42"%string eq_refl eq_refl eq_refl).
    vm_compute. reflexivity.
  - destruct (http {| Fetch.status := 500;
                      Fetch.json :=
                        inr {| Fetch.any := Js.JNull;
                               Fetch.annotated := no_upload_fields |} |}
                eq_refl) as (_ & _ & _ & _ & Hnull & _).
    apply (Hnull _ eq_refl eq_refl).
Defined.

(** C2 as stated fails twice: a body [{"detail": ""}] has the field but the
    message is the status fallback, not the field; and a non-2xx response whose
    body is not JSON gives the parse exception's message, which is neither the
    [detail] field nor the fallback with the status code. *)
Lemma C2_detail_present_but_fallback_shown :
  (let w := handleFileUpload_resume
              (error_response 500 (detail_object (Js.JString ""))) initial_world in
   error (page w) = Some "Upload failed: 500" /\ error (page w) <> Some "")
  /\ (let w := handleFileUpload_resume bad_gateway_html initial_world in
      error (page w) = Some "Unexpected token < in JSON at position 0"
      /\ error (page w) <> Some "Upload failed: 502").
Proof.
  split; cbv zeta; (split; [vm_compute; reflexivity|vm_compute; discriminate]).
Qed.

(** ** Drop, generation, reset *)

(** C7.  A drop carrying at least one file starts exactly one upload, for the
    first file of the drop; a drop carrying no file starts none.  (The same
    through the event of the page, when the drop zone is rendered.) *)
Theorem C7_drop_uploads_first_file_only (w : World) :
  (forall file rest,
      in_flight (handleDrop (file :: rest) w)
      = in_flight w ++ [AwaitUpload (upload_request file)]
      /\ Fetch.body (Fetch.init (upload_request file)) = Some [("file", file)]
      /\ forall w', step w (Drop (file :: rest)) = Some w' ->
           in_flight w' = in_flight w ++ [AwaitUpload (upload_request file)])
  /\ in_flight (handleDrop [] w) = in_flight w
  /\ (forall w', step w (Drop []) = Some w' -> in_flight w' = in_flight w).
Proof.
  split; [|split].
  - intros file rest. split; [reflexivity|]. split; [reflexivity|].
    unfold step, handle. destruct (dropzone_rendered (page w)); [|discriminate].
    intros w' [= <-]. reflexivity.
  - reflexivity.
  - unfold step, handle. destruct (dropzone_rendered (page w)); [|discriminate].
    intros w' [= <-]. reflexivity.
Qed.

(** C7 at a drop of two files on the initial page. *)
Lemma C7_drop_uploads_first_file_only_witness :
  exists w',
    step initial_world (Drop [rock_jpg; pebble_png]) = Some w'
    /\ in_flight w' = in_flight initial_world ++ [AwaitUpload (upload_request rock_jpg)].
Proof.
  destruct (C7_drop_uploads_first_file_only initial_world) as [Hfirst _].
  destruct (Hfirst rock_jpg [pebble_png]) as (_ & _ & Hstep).
  eexists. split; [vm_compute; reflexivity|].
  apply Hstep. vm_compute. reflexivity.
Defined.

(** C10.  With no stored upload result, the generation handler returns at once:
    the component state, the timers and the list of pending requests are what
    they were. *)
Theorem C10_generate_without_upload_is_noop (w : World) :
  uploadResult (page w) = None ->
  handleGenerate3D w = w.
Proof. unfold handleGenerate3D. intros ->. reflexivity. Qed.

(** C10 at the initial page. *)
Lemma C10_generate_without_upload_is_noop_witness :
  uploadResult (page initial_world) = None
  /\ handleGenerate3D initial_world = initial_world.
Proof.
  split; [reflexivity|].
  apply (C10_generate_without_upload_is_noop initial_world). reflexivity.
Defined.

Lemma run_cleanup_page (w : World) : page (run_cleanup w) = page w.
Proof. unfold run_cleanup. destruct (effect_cleanup w); reflexivity. Qed.

Lemma run_effect_flags (w : World) :
  isUploading (page (run_effect w)) = isUploading (page w)
  /\ isGenerating3D (page (run_effect w)) = isGenerating3D (page w).
Proof.
  unfold run_effect. destruct (generate3DResult (page w)) as [r|]; [|auto].
  destruct (truthy (model_data r)); auto.
Qed.

Lemma phase_in_progress (s : State) :
  (phase s = Uploading <-> isUploading s = true)
  /\ (phase s = Generating <-> isUploading s = false /\ isGenerating3D s = true).
Proof.
  unfold phase.
  destruct (isUploading s), (isGenerating3D s);
    repeat match goal with |- context [if ?b then _ else _] => destruct b end;
    split; split; intros H; try discriminate; auto;
    destruct H; discriminate.
Qed.

(** C9.  Once the upload handler has run to the end of its [finally] (the
    fetch was rejected, or answered with any status and any body),
    [isUploading] is false; once the generation handler has, [isGenerating3D]
    is false.  This holds whatever happened between the start of the call and
    its completion, and through the re-render that follows. *)
Theorem C9_in_progress_flags_cleared :
  (forall (o : Fetch.Settled UploadResponse) (w : World),
      isUploading (page (handleFileUpload_resume o w)) = false)
  /\ (forall (o : Fetch.Settled Generate3DResponse) (w : World),
        isGenerating3D (page (handleGenerate3D_resume o w)) = false)
  /\ (forall w k o w',
        step w (UploadSettles k o) = Some w' ->
        isUploading (page w') = false /\ phase (page w') <> Uploading)
  /\ (forall w k o w',
        step w (GenerationSettles k o) = Some w' ->
        isGenerating3D (page w') = false /\ phase (page w') <> Generating).
Proof.
  assert (Hup : forall o w, isUploading (page (handleFileUpload_resume o w)) = false).
  { intros o w. unfold handleFileUpload_resume.
    destruct (upload_try o); reflexivity. }
  assert (Hgen : forall o w, isGenerating3D (page (handleGenerate3D_resume o w)) = false).
  { intros o w. unfold handleGenerate3D_resume.
    destruct (generate_try o); [reflexivity|].
    unfold generate3DResult_changed.
    rewrite (proj2 (run_effect_flags _)), run_cleanup_page. reflexivity. }
  assert (Hattach : forall s, isUploading (attach_ref s) = isUploading s
                              /\ isGenerating3D (attach_ref s) = isGenerating3D s).
  { intros s. unfold attach_ref.
    destruct (dropzone_rendered s), (fileInputRef s); auto. }
  split; [exact Hup|]. split; [exact Hgen|]. split.
  - intros w k o w'. unfold step, handle.
    destruct (in_flight w !! k) as [[req|req]|]; try discriminate.
    intros [= <-]. cbn [with_page page].
    assert (Hflag : isUploading (attach_ref (page (handleFileUpload_resume o (settle k w))))
                    = false)
      by (rewrite (proj1 (Hattach _)); apply Hup).
    split; [exact Hflag|].
    rewrite (proj1 (phase_in_progress _)), Hflag. discriminate.
  - intros w k o w'. unfold step, handle.
    destruct (in_flight w !! k) as [[req|req]|]; try discriminate.
    intros [= <-]. cbn [with_page page].
    assert (Hflag : isGenerating3D
                      (attach_ref (page (handleGenerate3D_resume o (settle k w))))
                    = false)
      by (rewrite (proj2 (Hattach _)); apply Hgen).
    split; [exact Hflag|].
    rewrite (proj2 (phase_in_progress _)), Hflag. intros [_ H]. discriminate.
Qed.

(** C9 at an upload answered by a 502 with an HTML body. *)
Lemma C9_in_progress_flags_cleared_witness :
  let w := with_page attach_ref (handleDrop [rock_jpg] initial_world) in
  step initial_world (Drop [rock_jpg]) = Some w
  /\ isUploading (page w) = true
  /\ exists w',
       step w (UploadSettles 0 bad_gateway_html) = Some w'
       /\ isUploading (page w') = false.
Proof.
  destruct C9_in_progress_flags_cleared as (_ & _ & Hsettled & _).
  cbv zeta. split; [reflexivity|]. split; [reflexivity|].
  destruct (step (with_page attach_ref (handleDrop [rock_jpg] initial_world))
              (UploadSettles 0 bad_gateway_html)) as [w'|] eqn:Hs;
    [|vm_compute in Hs; discriminate].
  exists w'. split; [reflexivity|].
  exact (proj1 (Hsettled _ _ _ w' Hs)).
Defined.

(** "Start Analysis" is only offered when an upload result is stored, so a
    click always reaches the fetch. *)
Lemma start_analysis_issues_request (w w' : World) :
  step w ClickStartAnalysis = Some w' ->
  exists u,
    uploadResult (page w) = Some u
    /\ in_flight w' = in_flight w ++ [AwaitGenerate (generate_request u)]
    /\ isGenerating3D (page w') = true.
Proof.
  unfold step, handle, upload_card_rendered, handleGenerate3D.
  destruct (uploadResult (page w)) as [u|] eqn:Hu; [|discriminate].
  destruct (_ && _); [|discriminate].
  intros [= <-]. exists u. split; [reflexivity|]. split; [reflexivity|].
  cbn [with_page page fetch]. unfold attach_ref.
  match goal with |- context [dropzone_rendered ?s] => destruct (dropzone_rendered s) end;
    [match goal with |- context [fileInputRef ?s] => destruct (fileInputRef s) end|];
    reflexivity.
Qed.

Lemma phase_reset (s : State) :
  phase (resetUpload s)
  = if isUploading s then Uploading
    else if isGenerating3D s then Generating else Idle.
Proof.
  unfold resetUpload.
  destruct s as [dr up ur er gn gr rd te [el|]]; reflexivity.
Qed.

(** C6 (as the code has it).  Reset sets the upload result, the generation
    result, the 3D-ready flag and both error messages to empty, and empties the
    value of the file input when one is mounted (after the re-render a file
    input with an empty value is mounted); it leaves [isUploading] and
    [isGenerating3D] as they are, so the page is idle afterwards exactly when
    no upload and no generation is in progress, in particular from ready,
    upload_error and generation_error. *)
Theorem C6_reset_clears_results (s : State) :
  uploadResult (resetUpload s) = None
  /\ generate3DResult (resetUpload s) = None
  /\ is3DReady (resetUpload s) = false
  /\ error (resetUpload s) = None
  /\ threeDError (resetUpload s) = None
  /\ (forall el, fileInputRef (resetUpload s) = Some el -> value el = "")
  /\ fileInputRef (attach_ref (resetUpload s)) = Some {| value := "" |}
  /\ isUploading (resetUpload s) = isUploading s
  /\ isGenerating3D (resetUpload s) = isGenerating3D s
  /\ (phase (resetUpload s) = Idle
      <-> isUploading s = false /\ isGenerating3D s = false)
  /\ (phase (resetUpload s) = Idle
      <-> phase s <> Uploading /\ phase s <> Generating).
Proof.
  pose proof (phase_reset s) as Hreset.
  pose proof (phase_in_progress s) as [Hu Hg].
  unfold resetUpload.
  destruct s as [dr up ur er gn gr rd te [el|]];
    cbn [fileInputRef setThreeDError setIs3DReady setGenerate3DResult setError
         setUploadResult setFileInputRef uploadResult generate3DResult is3DReady
         error threeDError isUploading isGenerating3D isDragging] in *.
  all: unfold resetUpload in Hreset;
    cbn [fileInputRef setThreeDError setIs3DReady setGenerate3DResult setError
         setUploadResult setFileInputRef uploadResult generate3DResult is3DReady
         error threeDError isUploading isGenerating3D isDragging] in Hreset.
  all: rewrite Hreset.
  all: repeat (split; [reflexivity|]).
  all: split; [first [intros ? [= <-]; reflexivity | discriminate]|].
  all: split; [reflexivity|].
  all: repeat (split; [reflexivity|]).
  all: assert (Hflags : (if up then Uploading else if gn then Generating else Idle) = Idle
                        <-> up = false /\ gn = false)
    by (destruct up, gn; split; intros H; try discriminate; try (destruct H; discriminate); auto).
  all: split; [exact Hflags|].
  all: rewrite Hflags, Hu, Hg.
  all: destruct up, gn; split; intros H; auto; try (destruct H; discriminate).
  all: try (split; [discriminate | intros [? ?]; discriminate]).
  all: destruct H as [H1 H2]; exfalso; auto.
Qed.

(** C6 as stated fails from the generating state: "Upload Another" is
    rendered while the generation request is pending; reset leaves
    [isGenerating3D] set, the page is not idle, and the pending response
    still stores its result afterwards. *)
Lemma C6_reset_while_generating :
  exists w w' w'',
    run initial_world
      [ Drop [rock_jpg];
        UploadSettles 0 (ok_response uploaded_abc123);
        ClickStartAnalysis ] = Some w
    /\ phase (page w) = Generating
    /\ step w ClickReset = Some w'
    /\ isGenerating3D (page w') = true
    /\ phase (page w') <> Idle
    /\ step w' (GenerationSettles 0 (ok_response (generated triangle_payload))) = Some w''
    /\ generate3DResult (page w'') = Some (generated triangle_payload).
Proof.
  eexists _, _, _.
  split; [vm_compute; reflexivity|]. split; [reflexivity|].
  split; [vm_compute; reflexivity|]. split; [reflexivity|].
  split; [discriminate|]. split; [vm_compute; reflexivity|]. reflexivity.
Qed.

(** ** Timers *)

Lemma timer_view_changed (w : World) :
  timer_view (generate3DResult_changed w) = changed_view (timer_view w).
Proof.
  unfold generate3DResult_changed, timer_view, changed_view.
  assert (Hc : run_cleanup w
               = {| page := page w; timers := cleared (timers w) (effect_cleanup w);
                    next_timer := next_timer w; effect_cleanup := None;
                    in_flight := in_flight w |}).
  { unfold run_cleanup, cleared. destruct w as [p tm n [c|] fl]; reflexivity. }
  rewrite Hc. unfold run_effect. cbn [page timers next_timer effect_cleanup].
  destruct (generate3DResult (page w)) as [r|] eqn:Hr;
    [destruct (truthy (model_data r))|];
    cbn [page timers next_timer effect_cleanup generate3DResult setThreeDError
         setIs3DReady];
    rewrite ?Hr; reflexivity.
Qed.

Lemma timer_view_attach (w : World) :
  timer_view (with_page attach_ref w) = timer_view w.
Proof.
  unfold timer_view, with_page, attach_ref. cbn [page timers next_timer effect_cleanup].
  destruct (dropzone_rendered (page w)); [destruct (fileInputRef (page w))|]; reflexivity.
Qed.

Lemma choose_result (files : option (list File)) (s : State) :
  generate3DResult (choose files s) = generate3DResult s.
Proof.
  unfold choose. destruct files as [[|f fs]|], (fileInputRef s); reflexivity.
Qed.

(** What one event does to the timers: nothing, or a store into
    [generate3DResult] followed by cleanup and effect, or one timer going
    off. *)
Lemma handle_timer_view (w w' : World) (e : Event) :
  handle w e = Some w' ->
  timer_view w' = timer_view w
  \/ (exists x,
        timer_view w'
        = changed_view (x, timers w, next_timer w, effect_cleanup w))
  \/ (exists id t,
        timers w !! id = Some t
        /\ timer_view w'
           = (generate3DResult (page w), delete id (timers w), next_timer w,
              effect_cleanup w)).
Proof.
  destruct e as [| |files|files| | |k o|k o|id]; cbn [handle].
  - destruct (dropzone_rendered (page w)); [|discriminate]. intros [= <-]. left. reflexivity.
  - destruct (dropzone_rendered (page w)); [|discriminate]. intros [= <-]. left. reflexivity.
  - destruct (dropzone_rendered (page w)); [|discriminate]. intros [= <-]. left.
    destruct files; reflexivity.
  - destruct (dropzone_rendered (page w) && negb (isUploading (page w))); [|discriminate].
    intros [= <-]. left.
    assert (Hview : timer_view (handleFileSelect files (with_page (choose files) w))
                    = (generate3DResult (choose files (page w)), timers w,
                       next_timer w, effect_cleanup w))
      by (destruct files as [[|f fs]|]; reflexivity).
    rewrite Hview, choose_result. reflexivity.
  - destruct (upload_card_rendered (page w) && negb (isGenerating3D (page w)));
      [|discriminate].
    intros [= <-]. left. unfold handleGenerate3D.
    destruct (uploadResult (page w)); reflexivity.
  - destruct (upload_card_rendered (page w) || viewport_card_rendered (page w)
              || error_card_rendered (page w)); [|discriminate].
    intros [= <-]. right. left. exists None.
    unfold click_reset. rewrite timer_view_changed. f_equal.
    unfold timer_view, with_page, resetUpload. cbn [page timers next_timer effect_cleanup].
    destruct (page w) as [dr up ur er gn gr rd te [el|]]; reflexivity.
  - destruct (in_flight w !! k) as [[req|req]|]; try discriminate.
    intros [= <-]. left. unfold handleFileUpload_resume.
    destruct (upload_try o); reflexivity.
  - destruct (in_flight w !! k) as [[req|req]|]; try discriminate.
    intros [= <-]. unfold handleGenerate3D_resume.
    destruct (generate_try o) as [err|result].
    + left. reflexivity.
    + right. left. exists result. rewrite timer_view_changed. reflexivity.
  - unfold fire. destruct (timers w !! id) as [t|] eqn:Ht; [|discriminate].
    intros [= <-]. right. right. exists id, t. split; [exact Ht|].
    unfold timer_view, validation_callback.
    cbn [page timers next_timer effect_cleanup].
    destruct (validate (captured t)); reflexivity.
Qed.

Lemma cleared_lookup (tm : gmap nat Timeout) (c : option nat) (id : nat) (t : Timeout) :
  cleared tm c !! id = Some t -> tm !! id = Some t /\ c <> Some id.
Proof.
  destruct c as [c|]; cbn [cleared].
  - intros H. apply lookup_delete_Some in H as [Hne H]. split; [exact H|congruence].
  - intros H. split; [exact H|discriminate].
Qed.

Lemma cleared_none (tm : gmap nat Timeout) (c : option nat) (id : nat) :
  tm !! id = None -> cleared tm c !! id = None.
Proof.
  destruct c as [c|]; cbn [cleared]; [|trivial].
  intros H. rewrite lookup_delete_None. right. exact H.
Qed.

(** After the cleanup nothing that was tracked is pending. *)
Lemma tracks_cleared x tm n c (id : nat) :
  tracks (x, tm, n, c) -> cleared tm c !! id = None.
Proof.
  intros [Hpending _].
  destruct (cleared tm c !! id) as [t|] eqn:Ht; [|reflexivity].
  apply cleared_lookup in Ht as [Ht Hne].
  destruct (Hpending id t Ht) as [Hc _]. contradiction.
Qed.

Lemma tracks_changed x y tm n c :
  tracks (x, tm, n, c) -> tracks (changed_view (y, tm, n, c)).
Proof.
  intros Htr. pose proof (tracks_cleared x tm n c) as Hclr.
  specialize (fun id => Hclr id Htr).
  unfold changed_view.
  destruct y as [r|]; [destruct (truthy (model_data r))|].
  - split.
    + intros id t Hl. apply lookup_insert_Some in Hl as [[<- <-]|[_ Hl]].
      * split; reflexivity.
      * rewrite Hclr in Hl. discriminate.
    + intros id [= <-]. lia.
  - split; [|discriminate]. intros id t Hl. rewrite Hclr in Hl. discriminate.
  - split; [|discriminate]. intros id t Hl. rewrite Hclr in Hl. discriminate.
Qed.

Lemma tracks_fired x tm n c (id : nat) :
  tracks (x, tm, n, c) -> tracks (x, delete id tm, n, c).
Proof.
  intros [Hpending Hbound]. split; [|exact Hbound].
  intros id' t Hl. apply lookup_delete_Some in Hl as [_ Hl]. eauto.
Qed.

Lemma initial_world_tracks : timers_track_result initial_world.
Proof.
  unfold timers_track_result, timer_view, initial_world, tracks.
  cbn [page timers next_timer effect_cleanup].
  split; [|discriminate]. intros id t Hl. rewrite lookup_empty in Hl. discriminate.
Qed.

Lemma resume_tracks (o : Fetch.Settled Generate3DResponse) (w : World) :
  timers_track_result w -> timers_track_result (handleGenerate3D_resume o w).
Proof.
  unfold timers_track_result, handleGenerate3D_resume. intros Htr.
  destruct (generate_try o) as [err|result]; [exact Htr|].
  rewrite timer_view_changed. exact (tracks_changed _ _ _ _ _ Htr).
Qed.

Lemma step_tracks (w w' : World) (e : Event) :
  timers_track_result w -> step w e = Some w' -> timers_track_result w'.
Proof.
  unfold timers_track_result, step. intros Htr Hstep.
  destruct (handle w e) as [w1|] eqn:Hh; [|discriminate].
  injection Hstep as <-. rewrite timer_view_attach.
  destruct (handle_timer_view w w1 e Hh) as [-> | [(x & ->) | (id & t & _ & ->)]].
  - exact Htr.
  - exact (tracks_changed _ _ _ _ _ Htr).
  - exact (tracks_fired _ _ _ _ id Htr).
Qed.

Lemma run_tracks (es : list Event) (w w' : World) :
  timers_track_result w -> run w es = Some w' -> timers_track_result w'.
Proof.
  revert w. induction es as [|e es IH]; intros w Htr; cbn [run].
  - intros [= <-]. exact Htr.
  - destruct (step w e) as [w1|] eqn:Hs; [|discriminate].
    apply IH. exact (step_tracks w w1 e Htr Hs).
Qed.

Lemma reachable_tracks (w : World) : reachable w -> timers_track_result w.
Proof. intros [es Hrun]. exact (run_tracks es _ _ initial_world_tracks Hrun). Qed.

Lemma below_changed (b : nat) x y tm n c :
  none_pending_below b (x, tm, n, c) ->
  none_pending_below b (changed_view (y, tm, n, c)).
Proof.
  intros [Hb Hnone]. unfold changed_view.
  destruct y as [r|]; [destruct (truthy (model_data r))|]; split; try lia.
  - intros id Hid. rewrite lookup_insert_ne by lia. apply cleared_none, Hnone, Hid.
  - intros id Hid. apply cleared_none, Hnone, Hid.
  - intros id Hid. apply cleared_none, Hnone, Hid.
Qed.

Lemma step_below (b : nat) (w w' : World) (e : Event) :
  none_pending_below b (timer_view w) -> step w e = Some w' ->
  none_pending_below b (timer_view w').
Proof.
  unfold step. intros Hbel Hstep.
  destruct (handle w e) as [w1|] eqn:Hh; [|discriminate].
  injection Hstep as <-. rewrite timer_view_attach.
  destruct (handle_timer_view w w1 e Hh) as [-> | [(x & ->) | (id & t & _ & ->)]].
  - exact Hbel.
  - exact (below_changed b _ x _ _ _ Hbel).
  - destruct Hbel as [Hb Hnone]. split; [exact Hb|].
    intros id' Hid. rewrite lookup_delete_None. right. apply Hnone, Hid.
Qed.

Lemma run_below (b : nat) (es : list Event) (w w' : World) :
  none_pending_below b (timer_view w) -> run w es = Some w' ->
  none_pending_below b (timer_view w').
Proof.
  revert w. induction es as [|e es IH]; intros w Hbel; cbn [run].
  - intros [= <-]. exact Hbel.
  - destruct (step w e) as [w1|] eqn:Hs; [|discriminate].
    apply IH. exact (step_below b w w1 e Hbel Hs).
Qed.

(** C8.  When a newer generation result is stored while the validation timer
    of an earlier one is pending, that timer is cleared before the new one is
    scheduled; whatever events follow, it is never pending again and cannot go
    off, and every timer that is pending validates the result stored at that
    moment. *)
Theorem C8_stale_validation_cancelled
        (w : World) (o : Fetch.Settled Generate3DResponse) (r2 : Generate3DResponse) :
  timers_track_result w ->
  generate_try o = inr (Some r2) ->
  generate3DResult (page (handleGenerate3D_resume o w)) = Some r2
  /\ (forall id t, timers w !! id = Some t ->
        timers (handleGenerate3D_resume o w) !! id = None)
  /\ (forall es w3,
        run (handleGenerate3D_resume o w) es = Some w3 ->
        (forall id t, timers w !! id = Some t ->
           timers w3 !! id = None /\ step w3 (TimerFires id) = None)
        /\ (forall id t, timers w3 !! id = Some t ->
              generate3DResult (page w3) = Some (captured t))).
Proof.
  intros Htr Ho.
  pose proof (resume_tracks o w Htr) as Htr2.
  assert (Hview : timer_view (handleGenerate3D_resume o w)
                  = changed_view (Some r2, timers w, next_timer w, effect_cleanup w)).
  { unfold handleGenerate3D_resume. rewrite Ho, timer_view_changed. reflexivity. }
  assert (Hold : forall id t, timers w !! id = Some t -> (id < next_timer w)%nat).
  { intros id t Hl. destruct Htr as [Hp Hb]. apply Hb. apply (Hp id t Hl). }
  assert (Hbel : none_pending_below (next_timer w)
                   (timer_view (handleGenerate3D_resume o w))).
  { rewrite Hview. unfold changed_view.
    pose proof (fun id => tracks_cleared _ _ _ _ id Htr) as Hclr.
    cbn [timer_view] in Hclr.
    destruct (truthy (model_data r2)); split; try lia.
    - intros id Hid. rewrite lookup_insert_ne by lia. apply Hclr.
    - intros id Hid. apply Hclr. }
  split; [|split].
  - assert (Hx : (timer_view (handleGenerate3D_resume o w)).1.1.1 = Some r2).
    { rewrite Hview. unfold changed_view. destruct (truthy (model_data r2)); reflexivity. }
    exact Hx.
  - intros id t Hl. destruct Hbel as [_ Hnone]. apply Hnone. exact (Hold id t Hl).
  - intros es w3 Hrun. split.
    + intros id t Hl.
      destruct (run_below _ es _ w3 Hbel Hrun) as [_ Hnone].
      assert (Hgone : timers w3 !! id = None) by (apply Hnone; exact (Hold id t Hl)).
      split; [exact Hgone|].
      unfold step. cbn [handle]. unfold fire. rewrite Hgone. reflexivity.
    + intros id t Hl.
      destruct (run_tracks es _ w3 Htr2 Hrun) as [Hp _].
      apply (Hp id t Hl).
Qed.

(** C8 at two results stored one after the other: the timer of the first is
    pending after the first store and gone after the second. *)
Lemma C8_stale_validation_cancelled_witness :
  timers (handleGenerate3D_resume (ok_response (generated triangle_payload)) initial_world)
    !! 0%nat
  = Some {| captured := generated triangle_payload; delay := 500 |}
  /\ timers (handleGenerate3D_resume (ok_response (generated colored_payload))
               (handleGenerate3D_resume (ok_response (generated triangle_payload))
                  initial_world))
       !! 0%nat
     = None.
Proof.
  split; [vm_compute; reflexivity|].
  assert (Hstored : generate_try (ok_response (generated colored_payload))
                    = inr (Some (generated colored_payload))) by reflexivity.
  destruct (C8_stale_validation_cancelled
              (handleGenerate3D_resume (ok_response (generated triangle_payload))
                 initial_world)
              (ok_response (generated colored_payload))
              (generated colored_payload)
              (resume_tracks _ _ initial_world_tracks) Hstored)
    as (_ & Hcancelled & _).
  apply (Hcancelled 0%nat {| captured := generated triangle_payload; delay := 500 |}).
  vm_compute. reflexivity.
Defined.

(* ================================================================== *)
(** * Further properties of [RockMesh] *)

Lemma ToUint32_range (x : Js.number) : 0 <= Js.ToUint32 x < 2 ^ 32.
Proof.
  destruct x as [s|s| |s m e]; cbn [Js.ToUint32]; try lia.
  apply Z.mod_pos_bound. lia.
Qed.



(** X2.  Whatever the face entries are, every slot of the index buffer is an
    integer in [0, 2^32); a face entry that is an integer n (negative or too
    large included) is stored as n mod 2^32, so an out-of-range index wraps
    instead of being rejected. *)
Theorem X2_index_buffer_wraps (modelData : ModelData) (h : Js.Heap)
        (g : Three.BufferGeometry) (indices : Three.BufferAttribute Z) :
  fst (RockMesh_geometry modelData h) = inr g ->
  Three.index g = Some indices ->
  (forall j z, Three.array indices !! j = Some z -> 0 <= z < 2 ^ 32)
  /\ (forall fs j x n,
        faces modelData = Some fs ->
        Js.flat fs !! j = Some x ->
        Js.integer_value x = Some n ->
        Three.array indices !! j = Some (n mod 2 ^ 32)).
Proof.
  intros Hg Hi.
  destruct (vertices modelData) as [vs|] eqn:Hv;
    [destruct (faces modelData) as [fs|] eqn:Hf|].
  - rewrite (RockMesh_geometry_returns modelData vs fs h Hv Hf) in Hg.
    injection Hg as <-. cbn [built_geometry Three.index] in Hi.
    injection Hi as <-. cbn [Three.array]. unfold Js.Uint32Array. split.
    + intros j z Hz. rewrite list_lookup_fmap in Hz.
      destruct (Js.flat fs !! j) as [x|]; [|discriminate].
      injection Hz as <-. apply ToUint32_range.
    + intros fs' j x n [= <-] Hx Hn. rewrite list_lookup_fmap, Hx. cbn.
      f_equal. apply ToUint32_integer, Hn.
  - destruct (RockMesh_geometry_fails modelData h (or_intror Hf)) as (k & Hk & _).
    rewrite Hk in Hg. discriminate.
  - destruct (RockMesh_geometry_fails modelData h (or_introl Hv)) as (k & Hk & _).
    rewrite Hk in Hg. discriminate.
Qed.

(** X2 at a face with the entries -1, 2^32 + 1 and 2: the slots hold
    4294967295, 1 and 2. *)
Lemma X2_index_buffer_wraps_witness :
  exists g indices,
    fst (RockMesh_geometry wrapping_payload {| Js.next_ref := 0 |}) = inr g
    /\ Three.index g = Some indices
    /\ Three.array indices !! 0%nat = Some ((-1) mod 2 ^ 32)
    /\ Three.array indices = [4294967295; 1; 2]
    /\ (forall j z, Three.array indices !! j = Some z -> 0 <= z < 2 ^ 32).
Proof.
  eexists _, _. split; [reflexivity|]. split; [reflexivity|].
  destruct (X2_index_buffer_wraps wrapping_payload {| Js.next_ref := 0 |} _ _
              eq_refl eq_refl) as [Hrange Hwrap].
  split; [|split; [vm_compute; reflexivity|exact Hrange]].
  apply (Hwrap [ [Js.of_Z (-1); Js.of_Z 4294967297; Js.of_Z 2] ] 0%nat (Js.of_Z (-1)) (-1));
    reflexivity.
Defined.

(** X3.  When every vertex and every face has three entries, the position
    attribute counts as many items as the payload has vertices and the mesh
    draws as many triangles as the payload has faces. *)
Theorem X3_counts_follow_payload (modelData : ModelData) vs fs (h : Js.Heap) :
  vertices modelData = Some vs ->
  faces modelData = Some fs ->
  Forall (fun v => length v = 3%nat) vs ->
  Forall (fun f => length f = 3%nat) fs ->
  exists g positions,
    fst (RockMesh_geometry modelData h) = inr g
    /\ Three.position g = Some positions
    /\ Three.count positions = length vs
    /\ Three.triangle_count g = length fs.
Proof.
  intros Hv Hf Hvs Hfs.
  rewrite (RockMesh_geometry_returns modelData vs fs h Hv Hf).
  eexists _, _. split; [reflexivity|]. split; [reflexivity|].
  unfold Three.triangle_count, Three.count.
  cbn [built_geometry Three.position Three.index Three.array Three.itemSize].
  unfold Js.Float32Array, Js.Uint32Array.
  rewrite !length_map, (flat_length_uniform 3 vs Hvs), (flat_length_uniform 3 fs Hfs).
  rewrite Nat.div_1_r.
  rewrite !(Nat.mul_comm 3), !Nat.div_mul by discriminate.
  split; reflexivity.
Qed.

Lemma X3_counts_follow_payload_witness :
  exists g positions,
    fst (RockMesh_geometry colored_payload {| Js.next_ref := 0 |}) = inr g
    /\ Three.position g = Some positions
    /\ Three.count positions = 3%nat
    /\ Three.triangle_count g = 1%nat.
Proof.
  apply (X3_counts_follow_payload colored_payload colored_vertices
           [ [Js.of_Z 0; Js.of_Z 1; Js.of_Z 2] ] {| Js.next_ref := 0 |});
    [reflexivity | reflexivity | repeat constructor | repeat constructor].
Defined.

(** X4.  When [texture_coords] is omitted or empty the geometry has no [uv]
    attribute; when it is non-empty with two entries per coordinate, the [uv]
    attribute has item size 2, twice as many slots as coordinates, and slot
    2*i+k holds the single-precision rounding of texture_coords[i][k]. *)
Theorem X4_uv_buffer_follows_texture_coords (modelData : ModelData) vs fs (h : Js.Heap) :
  vertices modelData = Some vs ->
  faces modelData = Some fs ->
  exists g,
    fst (RockMesh_geometry modelData h) = inr g
    /\ (texture_coords modelData = None \/ texture_coords modelData = Some [] ->
        Three.uv g = None)
    /\ (forall ts,
          texture_coords modelData = Some ts -> ts <> [] ->
          Forall (fun t => length t = 2%nat) ts ->
          exists buffer,
            Three.uv g = Some buffer
            /\ Three.itemSize buffer = 2%nat
            /\ length (Three.array buffer) = (2 * length ts)%nat
            /\ forall i k, (k < 2)%nat ->
                 Three.array buffer !! (2 * i + k)%nat
                 = Js.fround <$> (ts !! i ≫= (fun t => t !! k))).
Proof.
  intros Hv Hf.
  rewrite (RockMesh_geometry_returns modelData vs fs h Hv Hf).
  eexists. split; [reflexivity|].
  cbn [built_geometry Three.uv]. split.
  - intros Hnone. apply present_and_nonempty_false in Hnone. rewrite Hnone. reflexivity.
  - intros ts Hts Hne Hall.
    assert (Hp : present_and_nonempty (texture_coords modelData) = true).
    { rewrite Hts. destruct ts; [contradiction|reflexivity]. }
    rewrite Hp, Hts. eexists. split; [reflexivity|].
    cbn [Three.itemSize Three.array]. change (default [] (Some ts)) with ts.
    split; [reflexivity|].
    unfold Js.Float32Array. rewrite length_map, (flat_length_uniform 2 ts Hall).
    split; [reflexivity|].
    intros i k Hk. rewrite list_lookup_fmap, (flat_lookup_uniform 2 ts i k Hall Hk).
    reflexivity.
Qed.

Lemma X4_uv_buffer_follows_texture_coords_witness :
  exists g buffer,
    fst (RockMesh_geometry textured_payload {| Js.next_ref := 0 |}) = inr g
    /\ Three.uv g = Some buffer
    /\ length (Three.array buffer) = (2 * 3)%nat
    /\ Three.array buffer !! (2 * 2 + 0)%nat = Some number_0_5.
Proof.
  destruct (X4_uv_buffer_follows_texture_coords textured_payload colored_vertices
              [ [Js.of_Z 0; Js.of_Z 1; Js.of_Z 2] ] {| Js.next_ref := 0 |}
              eq_refl eq_refl) as (g & Hg & _ & Huv).
  destruct (Huv textured_coords eq_refl) as (buffer & Hb & _ & Hlen & Hslots).
  - discriminate.
  - repeat constructor.
  - exists g, buffer. split; [exact Hg|]. split; [exact Hb|]. split; [exact Hlen|].
    rewrite (Hslots 2%nat 0%nat) by lia. vm_compute. reflexivity.
Defined.

(** X5.  When [colors] is non-empty with three entries per colour, slot 3*i+k
    of the colour attribute holds the single-precision rounding of
    colors[i][k], in the order of the payload. *)
Theorem X5_color_buffer_follows_colors (modelData : ModelData) vs fs cs (h : Js.Heap) :
  vertices modelData = Some vs ->
  faces modelData = Some fs ->
  colors modelData = Some cs ->
  cs <> [] ->
  Forall (fun c => length c = 3%nat) cs ->
  exists g buffer,
    fst (RockMesh_geometry modelData h) = inr g
    /\ Three.color g = Some buffer
    /\ Three.itemSize buffer = 3%nat
    /\ forall i k, (k < 3)%nat ->
         Three.array buffer !! (3 * i + k)%nat
         = Js.fround <$> (cs !! i ≫= (fun c => c !! k)).
Proof.
  intros Hv Hf Hc Hne Hall.
  rewrite (RockMesh_geometry_returns modelData vs fs h Hv Hf).
  assert (Hp : present_and_nonempty (colors modelData) = true).
  { rewrite Hc. destruct cs; [contradiction|reflexivity]. }
  exists (built_geometry vs fs modelData (Js.next_ref h)).
  cbn [fst built_geometry Three.color]. rewrite Hp, Hc. eexists.
  split; [reflexivity|]. split; [reflexivity|]. split; [reflexivity|].
  intros i k Hk. cbn [Three.array]. change (default [] (Some cs)) with cs.
  unfold Js.Float32Array.
  rewrite list_lookup_fmap, (flat_lookup_uniform 3 cs i k Hall Hk). reflexivity.
Qed.

Lemma X5_color_buffer_follows_colors_witness :
  exists g buffer,
    fst (RockMesh_geometry colored_payload {| Js.next_ref := 0 |}) = inr g
    /\ Three.color g = Some buffer
    /\ Three.array buffer !! (3 * 1 + 1)%nat = Some (Js.of_Z 1).
Proof.
  destruct (X5_color_buffer_follows_colors colored_payload colored_vertices
              [ [Js.of_Z 0; Js.of_Z 1; Js.of_Z 2] ] colored_colors
              {| Js.next_ref := 0 |} eq_refl eq_refl eq_refl)
    as (g & buffer & Hg & Hb & _ & Hslots).
  - discriminate.
  - repeat constructor.
  - exists g, buffer. split; [exact Hg|]. split; [exact Hb|].
    rewrite (Hslots 1%nat 1%nat) by lia. vm_compute. reflexivity.
Defined.

(** X6.  The two memo callbacks agree: the material has vertex colours on
    exactly when the geometry built from the same payload carries a colour
    attribute, and its base colour is white in that case and the rock brown
    otherwise; the material is always double-sided. *)
Theorem X6_material_matches_geometry (modelData : ModelData) (h h' : Js.Heap)
        (g : Three.BufferGeometry) :
  fst (RockMesh_geometry modelData h) = inr g ->
  exists m,
    fst (RockMesh_material modelData h') = inr m
    /\ (Three.vertexColors m = true <-> is_Some (Three.color g))
    /\ (Three.material_color m = 0xffffff <-> is_Some (Three.color g))
    /\ (Three.material_color m = 0x8B7355 <-> Three.color g = None)
    /\ Three.side m = Three.DoubleSide.
Proof.
  intros Hg.
  destruct (RockMesh_material_returns modelData h') as (m & Hm & _ & Hvc & Hcol & Hside).
  exists m. rewrite Hm. split; [reflexivity|].
  rewrite Hvc, Hcol.
  destruct (vertices modelData) as [vs|] eqn:Hv;
    [destruct (faces modelData) as [fs|] eqn:Hf|].
  - rewrite (RockMesh_geometry_returns modelData vs fs h Hv Hf) in Hg.
    injection Hg as <-. cbn [built_geometry Three.color].
    destruct (present_and_nonempty (colors modelData));
      repeat split; intros; try reflexivity; try discriminate;
      try (eexists; reflexivity); try exact Hside;
      match goal with H : is_Some None |- _ => destruct H; discriminate end.
  - destruct (RockMesh_geometry_fails modelData h (or_intror Hf)) as (k & Hk & _).
    rewrite Hk in Hg. discriminate.
  - destruct (RockMesh_geometry_fails modelData h (or_introl Hv)) as (k & Hk & _).
    rewrite Hk in Hg. discriminate.
Qed.

Lemma X6_material_matches_geometry_witness :
  exists g m,
    fst (RockMesh_geometry colored_payload {| Js.next_ref := 0 |}) = inr g
    /\ fst (RockMesh_material colored_payload {| Js.next_ref := 1 |}) = inr m
    /\ Three.vertexColors m = true
    /\ is_Some (Three.color g).
Proof.
  destruct (X6_material_matches_geometry colored_payload {| Js.next_ref := 0 |}
              {| Js.next_ref := 1 |} _ eq_refl) as (m & Hm & Hvc & _).
  eexists _, m. split; [reflexivity|]. split; [exact Hm|].
  assert (Hc : is_Some (Three.color
                          (built_geometry colored_vertices
                             [ [Js.of_Z 0; Js.of_Z 1; Js.of_Z 2] ] colored_payload 0)))
    by (eexists; reflexivity).
  split; [apply Hvc; exact Hc|exact Hc].
Defined.

(* ================================================================== *)
(** * Further properties of the handlers *)

Lemma resume_generation_error (o : Fetch.Settled Generate3DResponse) (w : World)
      (t : Js.Thrown) :
  generate_try o = inl t ->
  handleGenerate3D_resume o w
  = with_page (setIsGenerating3D false)
      (with_page (setError (Some (Js.message_or "3D generation failed" t))) w).
Proof. unfold handleGenerate3D_resume. intros ->. reflexivity. Qed.

Lemma generate_try_not_ok (response : Fetch.Response Generate3DResponse)
      (body : Fetch.Body Generate3DResponse) (detail : option Js.Json) :
  Fetch.ok response = false ->
  Fetch.json response = inr body ->
  Js.property "detail" (Fetch.any body) = inr detail ->
  generate_try (Fetch.Fulfilled response)
  = inl (Js.new_Error
           (Js.or_else detail
              (Js.JString
                 ("3D generation failed: " ++ Js.decimal (Fetch.status response))))).
Proof. intros Hok Hj Hd. unfold generate_try. rewrite Hok, Hj, Hd. reflexivity. Qed.

Lemma generation_error (o : Fetch.Settled Generate3DResponse) (w : World) (t : Js.Thrown) :
  generate_try o = inl t ->
  error (page (handleGenerate3D_resume o w))
  = Some (Js.message_or "3D generation failed" t).
Proof. intros Ht. rewrite (resume_generation_error o w t Ht). reflexivity. Qed.

(** X7.  A generation attempt answered with a non-2xx status whose body
    parses as JSON and is not [null] reports the body's [detail] when that is
    a non-empty string, the string conversion of [detail] when it is any other
    truthy value, and "3D generation failed: <status>" when [detail] is absent
    or falsy or the body is not an object.  When the body is JSON [null], or
    does not parse, or the conversion of [detail] throws, it reports the
    message of the exception thrown; a rejected fetch reports the caught
    message.  In all these cases no result is stored and no validation timer
    is scheduled. *)
Theorem X7_generation_error_message (w : World) :
  (forall response : Fetch.Response Generate3DResponse,
      Fetch.ok response = false ->
      let w' := handleGenerate3D_resume (Fetch.Fulfilled response) w in
      (forall body d,
          Fetch.json response = inr body ->
          Js.property "detail" (Fetch.any body) = inr (Some (Js.JString d)) ->
          d <> "" ->
          error (page w') = Some d)
      /\ (forall body v text,
            Fetch.json response = inr body ->
            Js.property "detail" (Fetch.any body) = inr (Some v) ->
            Js.ToBoolean v = true ->
            Js.ToString v = inr text ->
            error (page w') = Some text)
      /\ (forall body detail,
            Fetch.json response = inr body ->
            Js.property "detail" (Fetch.any body) = inr detail ->
            detail = None \/ (exists v, detail = Some v /\ Js.ToBoolean v = false) ->
            error (page w')
            = Some ("3D generation failed: " ++ Js.decimal (Fetch.status response))%string)
      /\ (forall body v m,
            Fetch.json response = inr body ->
            Js.property "detail" (Fetch.any body) = inr (Some v) ->
            Js.ToBoolean v = true ->
            Js.ToString v = inl (Js.ErrorObject m) ->
            error (page w') = Some m)
      /\ (forall body,
            Fetch.json response = inr body ->
            Fetch.any body = Js.JNull ->
            error (page w') = Some "Cannot read properties of null (reading 'detail')")
      /\ (forall m,
            Fetch.json response = inl (Js.ErrorObject m) ->
            error (page w') = Some m)
      /\ generate3DResult (page w') = generate3DResult (page w)
      /\ timers w' = timers w
      /\ is3DReady (page w') = is3DReady (page w))
  /\ (forall m,
        let w' := handleGenerate3D_resume (Fetch.Rejected (Js.ErrorObject m)) w in
        error (page w') = Some m
        /\ generate3DResult (page w') = generate3DResult (page w)
        /\ timers w' = timers w).
Proof.
  split; [|intros m; cbv zeta; repeat split].
  intros response Hok. cbv zeta.
  assert (Hfail : exists t, generate_try (Fetch.Fulfilled response) = inl t).
  { unfold generate_try. rewrite Hok. cbn [negb].
    destruct (Fetch.json response) as [t|body]; [eexists; reflexivity|].
    destruct (Js.property "detail" (Fetch.any body)); eexists; reflexivity. }
  destruct Hfail as [t Ht].
  assert (Htext : forall body v text,
             Fetch.json response = inr body ->
             Js.property "detail" (Fetch.any body) = inr (Some v) ->
             Js.ToBoolean v = true ->
             Js.ToString v = inr text ->
             error (page (handleGenerate3D_resume (Fetch.Fulfilled response) w))
             = Some text).
  { intros body v text Hj Hd Hv Htx.
    rewrite (generation_error _ w (Js.ErrorObject text)); [reflexivity|].
    rewrite (generate_try_not_ok response body _ Hok Hj Hd), or_else_truthy by exact Hv.
    rewrite (new_Error_text v text Htx). reflexivity. }
  split; [|split; [exact Htext|split; [|split; [|split; [|split]]]]].
  - intros body d Hj Hd Hne.
    exact (Htext body (Js.JString d) d Hj Hd (ToBoolean_string d Hne) eq_refl).
  - intros body detail Hj Hd Hfalsy.
    rewrite (generation_error _ w
               (Js.ErrorObject
                  ("3D generation failed: " ++ Js.decimal (Fetch.status response))%string));
      [reflexivity|].
    rewrite (generate_try_not_ok response body detail Hok Hj Hd).
    rewrite (or_else_falsy detail _ Hfalsy). reflexivity.
  - intros body v m Hj Hd Hv Htx.
    rewrite (generation_error _ w (Js.ErrorObject m)); [reflexivity|].
    rewrite (generate_try_not_ok response body _ Hok Hj Hd), or_else_truthy by exact Hv.
    unfold Js.new_Error. rewrite Htx. reflexivity.
  - intros body Hj Hnull.
    rewrite (generation_error _ w (Js.nullish_property Js.Null "detail")); [reflexivity|].
    unfold generate_try. rewrite Hok, Hj, Hnull. reflexivity.
  - intros m Hj.
    rewrite (generation_error _ w (Js.ErrorObject m)); [reflexivity|].
    unfold generate_try. rewrite Hok, Hj. reflexivity.
  - rewrite (resume_generation_error _ w t Ht). repeat split.
Qed.

(** X7 at a 404 with a [detail], at a 422 whose [detail] is a list, and at a
    500 whose body is [null]. *)
Lemma X7_generation_error_message_witness :
  (let w := handleGenerate3D_resume
              (generation_error_response 404 (detail_object (Js.JString "File not found")))
              initial_world in
   error (page w) = Some "File not found"
   /\ generate3DResult (page w) = None
   /\ timers w = timers initial_world)
  /\ error (page (handleGenerate3D_resume
                    (generation_error_response 422
                       (detail_object
                          (Js.JArray [Js.JString "file_id"; Js.JNumber (Js.of_Z 7)])))
                    initial_world))
     = Some "file_id,7"
  /\ error (page (handleGenerate3D_resume (generation_error_response 500 Js.JNull)
                    initial_world))
     = Some "Cannot read properties of null (reading 'detail')".
Proof.
  destruct (X7_generation_error_message initial_world) as [http _].
  split; [|split].
  - destruct (http {| Fetch.status := 404;
                      Fetch.json :=
                        inr {| Fetch.any := detail_object (Js.JString "File not found");
                               Fetch.annotated := generated_without_model |} |}
                eq_refl) as (Hdetail & _ & _ & _ & _ & _ & Hresult & Htimers & _).
    cbv zeta. split; [|split; [exact Hresult|exact Htimers]].
    apply (Hdetail _ "File not found" eq_refl eq_refl). discriminate.
  - destruct (http {| Fetch.status := 422;
                      Fetch.json :=
                        inr {| Fetch.any :=
                                 detail_object
                                   (Js.JArray [Js.JString "file_id"; Js.JNumber (Js.of_Z 7)]);
                               Fetch.annotated := generated_without_model |} |}
                eq_refl) as (_ & Htext & _).
    apply (Htext _ (Js.JArray [Js.JString "file_id"; Js.JNumber (Js.of_Z 7)])
             "file_id,7"%string eq_refl eq_refl eq_refl).
    vm_compute. reflexivity.
  - destruct (http {| Fetch.status := 500;
                      Fetch.json :=
                        inr {| Fetch.any := Js.JNull;
                               Fetch.annotated := generated_without_model |} |}
                eq_refl) as (_ & _ & _ & _ & Hnull & _).
    apply (Hnull _ eq_refl eq_refl).
Defined.

(** X8.  One complete upload (the handler up to the fetch, then the settled
    fetch) stores a result exactly when the response had a 2xx status and a
    body that parsed to a truthy value, and then it is that body.  It sets an
    error exactly when the fetch was rejected, the status was not 2xx, or the
    body did not parse.  A 2xx response whose body is [null] (or another
    falsy value) therefore leaves the page with neither a result nor an
    error.  In every case the generation result, the 3D flags and the timers
    are left alone. *)
Theorem X8_upload_stores_result_or_error
        (file : File) (o : Fetch.Settled UploadResponse) (w : World) :
  let w' := handleFileUpload_resume o (handleFileUpload file w) in
  (forall r,
      uploadResult (page w') = Some r
      <-> exists response body,
            o = Fetch.Fulfilled response
            /\ Fetch.ok response = true
            /\ Fetch.json response = inr body
            /\ Js.ToBoolean (Fetch.any body) = true
            /\ Fetch.annotated body = r)
  /\ (error (page w') = None
      <-> exists response body,
            o = Fetch.Fulfilled response
            /\ Fetch.ok response = true
            /\ Fetch.json response = inr body)
  /\ (uploadResult (page w') = None /\ error (page w') = None
      <-> exists response body,
            o = Fetch.Fulfilled response
            /\ Fetch.ok response = true
            /\ Fetch.json response = inr body
            /\ Js.ToBoolean (Fetch.any body) = false)
  /\ generate3DResult (page w') = generate3DResult (page w)
  /\ is3DReady (page w') = is3DReady (page w)
  /\ threeDError (page w') = threeDError (page w)
  /\ timers w' = timers w.
Proof.
  cbv zeta. unfold handleFileUpload_resume.
  destruct (upload_try o) as [t|r0] eqn:Htry.
  - assert (Hno : ~ exists response body,
                      o = Fetch.Fulfilled response
                      /\ Fetch.ok response = true
                      /\ Fetch.json response = inr body).
    { intros (response & body & -> & Hok & Hj).
      unfold upload_try in Htry. rewrite Hok, Hj in Htry. discriminate. }
    split; [|split; [|split; [|repeat split]]].
    + intros r. split; [discriminate|].
      intros (response & body & Ho & Hok & Hj & _). destruct Hno. eauto.
    + split; [discriminate|]. intros H. destruct (Hno H).
    + split; [intros [_ H]; discriminate|].
      intros (response & body & Ho & Hok & Hj & _). destruct Hno. eauto.
  - assert (Hyes : exists response body,
               o = Fetch.Fulfilled response
               /\ Fetch.ok response = true
               /\ Fetch.json response = inr body
               /\ r0 = Fetch.result body).
    { unfold upload_try in Htry.
      destruct o as [reason|response]; [discriminate|].
      destruct (Fetch.ok response) eqn:Hok; cbn [negb] in Htry.
      - destruct (Fetch.json response) as [t|body] eqn:Hj; [discriminate|].
        injection Htry as <-. exists response, body. auto.
      - destruct (Fetch.json response) as [t|body]; [discriminate|].
        destruct (Js.property "detail" (Fetch.any body)); discriminate. }
    destruct Hyes as (response & body & -> & Hok & Hj & ->).
    assert (Hstored : uploadResult
                        (page (with_page (setIsUploading false)
                                 (with_page (setUploadResult (Fetch.result body))
                                    (handleFileUpload file w))))
                      = Fetch.result body) by reflexivity.
    assert (Herror : error
                       (page (with_page (setIsUploading false)
                                (with_page (setUploadResult (Fetch.result body))
                                   (handleFileUpload file w))))
                     = None) by reflexivity.
    assert (Hsame : forall response' body',
               Fetch.Fulfilled response = Fetch.Fulfilled response' ->
               Fetch.json response' = inr body' -> body' = body).
    { intros response' body' [= <-] Hj'. rewrite Hj in Hj'. injection Hj' as <-.
      reflexivity. }
    rewrite Hstored, Herror. unfold Fetch.result.
    split; [|split; [|split; [|repeat split]]].
    + intros r. split.
      * destruct (Js.ToBoolean (Fetch.any body)) eqn:Hb; [|discriminate].
        intros [= <-]. exists response, body. auto.
      * intros (response' & body' & Ho & _ & Hj' & Hb & <-).
        rewrite (Hsame response' body' Ho Hj') in Hb |- *. rewrite Hb. reflexivity.
    + split; [|reflexivity]. intros _. exists response, body. auto.
    + split.
      * destruct (Js.ToBoolean (Fetch.any body)) eqn:Hb; [intros [H _]; discriminate|].
        intros _. exists response, body. auto.
      * intros (response' & body' & Ho & _ & Hj' & Hb).
        rewrite (Hsame response' body' Ho Hj') in Hb. rewrite Hb. auto.
Qed.

(** X8 at a 200 response whose body is [null], and at one whose body is an
    upload record. *)
Lemma X8_upload_stores_result_or_error_witness :
  (let w := handleFileUpload_resume ok_null_response
              (handleFileUpload rock_jpg initial_world) in
   uploadResult (page w) = None /\ error (page w) = None)
  /\ uploadResult
       (page (handleFileUpload_resume (ok_response uploaded_abc123)
                (handleFileUpload rock_jpg initial_world)))
     = Some uploaded_abc123.
Proof.
  split.
  - destruct (X8_upload_stores_result_or_error rock_jpg ok_null_response initial_world)
      as (_ & _ & Hneither & _).
    apply Hneither. eexists _, _. repeat split; reflexivity.
  - destruct (X8_upload_stores_result_or_error rock_jpg (ok_response uploaded_abc123)
                initial_world) as (Hstored & _).
    apply (Hstored uploaded_abc123). eexists _, _. repeat split; reflexivity.
Defined.

(** X9.  The file picker starts no upload and changes nothing when the
    selection is missing or empty, and starts exactly one upload, for the
    first selected file, otherwise; the page offers the picker only while the
    drop zone is rendered and no upload is in progress. *)
Theorem X9_file_select_uploads_first_file (w : World) :
  handleFileSelect None w = w
  /\ handleFileSelect (Some []) w = w
  /\ (forall file rest,
        in_flight (handleFileSelect (Some (file :: rest)) w)
        = in_flight w ++ [AwaitUpload (upload_request file)]
        /\ isUploading (page (handleFileSelect (Some (file :: rest)) w)) = true)
  /\ (forall files w',
        step w (FileSelect files) = Some w' ->
        dropzone_rendered (page w) = true
        /\ isUploading (page w) = false
        /\ in_flight w'
           = in_flight w
             ++ match files with
                | Some (file :: _) => [AwaitUpload (upload_request file)]
                | _ => []
                end).
Proof.
  split; [reflexivity|]. split; [reflexivity|]. split.
  - intros file rest. split; reflexivity.
  - intros files w'. unfold step, handle.
    destruct (dropzone_rendered (page w)); [|discriminate].
    destruct (isUploading (page w)); [discriminate|]. cbn [andb negb].
    intros [= <-]. split; [reflexivity|]. split; [reflexivity|].
    destruct files as [[|f fs]|]; cbn; rewrite ?app_nil_r; reflexivity.
Qed.

Lemma X9_file_select_uploads_first_file_witness :
  exists w',
    step initial_world (FileSelect (Some [rock_jpg; pebble_png])) = Some w'
    /\ in_flight w' = [AwaitUpload (upload_request rock_jpg)]
    /\ dropzone_rendered (page initial_world) = true
    /\ isUploading (page initial_world) = false.
Proof.
  destruct (X9_file_select_uploads_first_file initial_world) as (_ & _ & _ & Hstep).
  eexists. split; [vm_compute; reflexivity|]. split; [reflexivity|].
  refine (let H := Hstep (Some [rock_jpg; pebble_png]) _ _ in conj (proj1 H) (proj1 (proj2 H))).
  vm_compute. reflexivity.
Defined.

(** X10.  In every state the page offers either the drop zone or a reset
    button, never both and never neither: a reset click is possible exactly
    when the drop zone is not rendered, and a drop exactly when it is. *)
Theorem X10_reset_or_dropzone (w : World) :
  ((exists w', step w ClickReset = Some w') <-> dropzone_rendered (page w) = false)
  /\ (forall files,
        (exists w', step w (Drop files) = Some w') <-> dropzone_rendered (page w) = true).
Proof.
  unfold step, handle, dropzone_rendered, upload_card_rendered,
    viewport_card_rendered, error_card_rendered.
  destruct (truthy (uploadResult (page w))), (truthy_string (error (page w))),
    (truthy (generate3DResult (page w))); cbn [negb andb orb];
    (split; [|intros files]); split;
    try (intros _; eexists; reflexivity); try reflexivity;
    try discriminate; intros [w' H]; discriminate.
Qed.

(** X11.  A click on "Start Analysis" always reaches the fetch: the page
    offers it only with a stored upload result, it issues exactly one POST to
    the generation URL for that upload's [file_id], sets [isGenerating3D],
    clears the error and keeps the upload result. *)
Theorem X11_start_analysis_issues_one_request (w w' : World) :
  step w ClickStartAnalysis = Some w' ->
  exists u,
    uploadResult (page w) = Some u
    /\ in_flight w' = in_flight w ++ [AwaitGenerate (generate_request u)]
    /\ Fetch.url (generate_request u)
       = ("http://localhost:8000/generate-3d/" ++ file_id u)%string
    /\ isGenerating3D (page w') = true
    /\ error (page w') = None
    /\ uploadResult (page w') = Some u.
Proof.
  unfold step, handle, upload_card_rendered, handleGenerate3D.
  destruct (uploadResult (page w)) as [u|] eqn:Hu; [|discriminate].
  destruct (_ && _); [|discriminate].
  intros [= <-]. exists u. split; [reflexivity|]. split; [reflexivity|].
  split; [reflexivity|].
  cbn [with_page page fetch]. unfold attach_ref.
  match goal with |- context [dropzone_rendered ?s] => destruct (dropzone_rendered s) end;
    [match goal with |- context [fileInputRef ?s] => destruct (fileInputRef s) end|];
    cbn; rewrite ?Hu; repeat split.
Qed.

Lemma X11_start_analysis_issues_one_request_witness :
  let w :=
    with_page attach_ref
      (handleFileUpload_resume (ok_response uploaded_abc123)
         (settle 0 (with_page attach_ref (handleDrop [rock_jpg] initial_world)))) in
  run initial_world [Drop [rock_jpg]; UploadSettles 0 (ok_response uploaded_abc123)]
  = Some w
  /\ exists w',
       step w ClickStartAnalysis = Some w'
       /\ in_flight w' = in_flight w ++ [AwaitGenerate (generate_request uploaded_abc123)]
       /\ isGenerating3D (page w') = true.
Proof.
  cbv zeta. split; [reflexivity|].
  match goal with
  | |- exists w', step ?w ClickStartAnalysis = Some w' /\ _ =>
      destruct (step w ClickStartAnalysis) as [w'|] eqn:Hs;
        [|vm_compute in Hs; discriminate];
      destruct (X11_start_analysis_issues_one_request w w' Hs)
        as (u & Hu & Hfl & _ & Hgen & _)
  end.
  exists w'. split; [reflexivity|]. split; [|exact Hgen].
  injection Hu as <-. exact Hfl.
Defined.

(* ================================================================== *)
(** * What every reachable page satisfies *)

Lemma filter_length_snoc (p : Suspended -> bool) (fl : list Suspended) (x : Suspended) :
  length (List.filter p (fl ++ [x]))
  = (length (List.filter p fl) + (if p x then 1 else 0))%nat.
Proof.
  rewrite List.filter_app, length_app. cbn [List.filter].
  destruct (p x); reflexivity.
Qed.

Lemma filter_length_remove (p : Suspended -> bool) (fl : list Suspended)
      (k : nat) (x : Suspended) :
  fl !! k = Some x ->
  (length (List.filter p (take k fl ++ drop (S k) fl)) + (if p x then 1 else 0))%nat
  = length (List.filter p fl).
Proof.
  intros Hk. rewrite <- (take_drop_middle fl k x Hk) at 3.
  rewrite !List.filter_app, !length_app. cbn [List.filter].
  destruct (p x); cbn [length]; lia.
Qed.

Lemma coherent_same_core (w w' : World) :
  same_core w w' -> coherent w -> coherent w'.
Proof.
  intros (H1 & H2 & H3 & H4 & H5 & H6 & H7 & H8 & H9) [a b c d e f g h].
  constructor;
    unfold timers_track_result, timer_view, pending_generations, pending_uploads in *;
    rewrite ?H1, ?H2, ?H3, ?H4, ?H5, ?H6, ?H7, ?H8, ?H9; assumption.
Qed.

Lemma same_core_attach (w : World) : same_core w (with_page attach_ref w).
Proof.
  unfold same_core, with_page, attach_ref. cbn [page timers next_timer effect_cleanup in_flight].
  destruct (dropzone_rendered (page w)); [destruct (fileInputRef (page w))|];
    repeat split.
Qed.

Lemma initial_world_coherent : coherent initial_world.
Proof.
  constructor; cbn.
  - exact initial_world_tracks.
  - intros id t Hl. rewrite lookup_empty in Hl. discriminate.
  - auto.
  - discriminate.
  - reflexivity.
  - discriminate.
  - discriminate.
  - discriminate.
Qed.

Lemma handle_tracks (w w' : World) (e : Event) :
  timers_track_result w -> handle w e = Some w' -> timers_track_result w'.
Proof.
  unfold timers_track_result. intros Htr Hh.
  destruct (handle_timer_view w w' e Hh) as [-> | [(x & ->) | (id & t & _ & ->)]].
  - exact Htr.
  - exact (tracks_changed _ _ _ _ _ Htr).
  - exact (tracks_fired _ _ _ _ id Htr).
Qed.

Lemma tracks_no_result (w : World) (id : nat) :
  timers_track_result w -> generate3DResult (page w) = None -> timers w !! id = None.
Proof.
  intros [Hp _] Hnone. cbn [timer_view] in Hp.
  destruct (timers w !! id) as [t|] eqn:Ht; [|reflexivity].
  destruct (Hp id t Ht) as [_ Hx]. rewrite Hnone in Hx. discriminate.
Qed.

Lemma reset_fields (s : State) :
  generate3DResult (resetUpload s) = None
  /\ is3DReady (resetUpload s) = false
  /\ threeDError (resetUpload s) = None
  /\ isUploading (resetUpload s) = isUploading s
  /\ isGenerating3D (resetUpload s) = isGenerating3D s.
Proof.
  unfold resetUpload. destruct s as [dr up ur er gn gr rd te [el|]]; repeat split.
Qed.

Lemma run_cleanup_eq (w : World) :
  run_cleanup w
  = {| page := page w; timers := cleared (timers w) (effect_cleanup w);
       next_timer := next_timer w; effect_cleanup := None;
       in_flight := in_flight w |}.
Proof. unfold run_cleanup, cleared. destruct w as [p tm n [c|] fl]; reflexivity. Qed.

Lemma click_reset_eq (w : World) :
  click_reset w
  = {| page := resetUpload (page w); timers := cleared (timers w) (effect_cleanup w);
       next_timer := next_timer w; effect_cleanup := None;
       in_flight := in_flight w |}.
Proof.
  unfold click_reset, generate3DResult_changed. rewrite run_cleanup_eq.
  unfold run_effect. cbn [page with_page].
  replace (generate3DResult (resetUpload (page w))) with (@None Generate3DResponse)
    by (symmetry; apply reset_fields).
  reflexivity.
Qed.

Ltac page_fields :=
  unfold pending_generations, pending_uploads in *;
  cbn [page timers next_timer effect_cleanup in_flight with_page fetch settle
       handleFileUpload handleDragOver handleDragLeave
       isDragging isUploading uploadResult error isGenerating3D generate3DResult
       is3DReady threeDError fileInputRef
       setIsDragging setIsUploading setUploadResult setError setIsGenerating3D
       setGenerate3DResult setIs3DReady setThreeDError setFileInputRef] in *.

Lemma coherent_handleFileUpload (file : File) (w : World) :
  coherent w -> coherent (handleFileUpload file w).
Proof.
  intros [a b c d e f g h]. constructor; page_fields; try assumption.
  - rewrite filter_length_snoc. cbn [is_generation]. rewrite e. lia.
  - intros _. rewrite filter_length_snoc. cbn [is_upload]. lia.
Qed.

Lemma coherent_handleGenerate3D (w : World) :
  generate3DResult (page w) = None ->
  isGenerating3D (page w) = false ->
  coherent w -> coherent (handleGenerate3D w).
Proof.
  intros Hnone Hidle Hc. unfold handleGenerate3D.
  destruct (uploadResult (page w)) as [u|]; [|exact Hc].
  destruct Hc as [a b c d e f g h]. constructor; page_fields; try assumption.
  - intros _. exact Hnone.
  - rewrite filter_length_snoc. cbn [is_generation]. rewrite e, Hidle. reflexivity.
  - rewrite filter_length_snoc. cbn [is_upload].
    intros Hu. specialize (h Hu). lia.
Qed.

Lemma coherent_click_reset (w : World) :
  coherent w -> coherent (click_reset w).
Proof.
  intros Hc. pose proof (coh_tracks w Hc) as Htr.
  destruct (reset_fields (page w)) as (Hgr & Hrd & Hte & Hup & Hgn).
  assert (Hgone : forall id, cleared (timers w) (effect_cleanup w) !! id = None)
    by (intros id; exact (tracks_cleared _ _ _ _ id Htr)).
  rewrite click_reset_eq.
  destruct Hc as [a b c d e f g h]. constructor; page_fields.
  - unfold timers_track_result, timer_view. page_fields. rewrite Hgr. split.
    + intros id t Hl. rewrite Hgone in Hl. discriminate.
    + discriminate.
  - intros id t Hl. rewrite Hgone in Hl. discriminate.
  - intros _. split; assumption.
  - intros _. exact Hgr.
  - rewrite Hgn. exact e.
  - rewrite Hrd. discriminate.
  - rewrite Hte. discriminate.
  - rewrite Hup. exact h.
Qed.

Lemma coherent_upload_settles (w : World) (k : nat) (req : Fetch.Request)
      (o : Fetch.Settled UploadResponse) :
  in_flight w !! k = Some (AwaitUpload req) ->
  coherent w -> coherent (handleFileUpload_resume o (settle k w)).
Proof.
  intros Hk [a b c d e f g h]. unfold handleFileUpload_resume.
  pose proof (filter_length_remove is_generation _ k _ Hk) as Hrem.
  cbn [is_generation] in Hrem.
  destruct (upload_try o); constructor; page_fields; try assumption;
    try discriminate; rewrite <- e; lia.
Qed.

Lemma generate3DResult_changed_eq (w : World) :
  generate3DResult_changed w
  = match generate3DResult (page w) with
    | Some r =>
        if truthy (model_data r) then
          {| page := setThreeDError None (setIs3DReady false (page w));
             timers := <[next_timer w := {| captured := r; delay := 500 |}]>
                         (cleared (timers w) (effect_cleanup w));
             next_timer := S (next_timer w);
             effect_cleanup := Some (next_timer w);
             in_flight := in_flight w |}
        else run_cleanup w
    | None => run_cleanup w
    end.
Proof.
  unfold generate3DResult_changed. rewrite run_cleanup_eq. unfold run_effect.
  cbn [page timers next_timer effect_cleanup in_flight].
  destruct (generate3DResult (page w)) as [r|]; [|reflexivity].
  destruct (truthy (model_data r)); reflexivity.
Qed.

Lemma coherent_generation_settles (w : World) (k : nat) (req : Fetch.Request)
      (o : Fetch.Settled Generate3DResponse) :
  in_flight w !! k = Some (AwaitGenerate req) ->
  coherent w -> coherent (handleGenerate3D_resume o (settle k w)).
Proof.
  intros Hk Hc.
  pose proof (resume_tracks o (settle k w)) as Htr'.
  assert (Htr0 : timers_track_result (settle k w)) by exact (coh_tracks w Hc).
  specialize (Htr' Htr0).
  pose proof (filter_length_remove is_generation _ k _ Hk) as Hgens.
  pose proof (filter_length_remove is_upload _ k _ Hk) as Hups.
  cbn [is_generation is_upload] in Hgens, Hups.
  destruct Hc as [a b c d e f g h].
  assert (Hgn : isGenerating3D (page w) = true).
  { unfold pending_generations in e.
    destruct (isGenerating3D (page w)); [reflexivity|]. lia. }
  pose proof (d Hgn) as Hgr. destruct (c Hgr) as [Hrd Hte].
  assert (Hnone : forall id, timers w !! id = None)
    by (intros id; exact (tracks_no_result w id a Hgr)).
  assert (Hclr : forall id, cleared (timers w) (effect_cleanup w) !! id = None)
    by (intros id; apply cleared_none, Hnone).
  unfold pending_generations in e. rewrite Hgn in e.
  revert Htr'. unfold handleGenerate3D_resume.
  destruct (generate_try o) as [err|r]; intros Htr'.
  - constructor; page_fields; try assumption; try discriminate.
    + lia.
    + intros Hu. specialize (h Hu). lia.
  - revert Htr'. rewrite generate3DResult_changed_eq, run_cleanup_eq. page_fields.
    destruct r as [r|]; [destruct (truthy (model_data r)) eqn:Hmd|]; intros Htr';
      constructor; page_fields; try exact Htr'; try discriminate.
    + intros id t Hl. apply lookup_insert_Some in Hl as [[_ <-]|[_ Hl]].
      * cbn [delay captured]. auto.
      * rewrite Hclr in Hl. discriminate.
    + lia.
    + intros Hu. specialize (h Hu). lia.
    + intros id t Hl. rewrite Hclr in Hl. discriminate.
    + lia.
    + rewrite Hrd. discriminate.
    + rewrite Hte. discriminate.
    + intros Hu. specialize (h Hu). lia.
    + intros id t Hl. rewrite Hclr in Hl. discriminate.
    + intros _. split; assumption.
    + lia.
    + rewrite Hrd. discriminate.
    + rewrite Hte. discriminate.
    + intros Hu. specialize (h Hu). lia.
Qed.

Lemma validate_error_message (r : Generate3DResponse) (err : Js.Thrown) :
  truthy (model_data r) = true ->
  validate r = inl err ->
  err = Js.ErrorObject "Invalid model data structure".
Proof.
  destruct (model_data r) as [md|] eqn:Hmd; [|discriminate].
  intros _. rewrite (validate_defined r md Hmd).
  destruct (missing _ || missing _ || _); [|discriminate].
  intros [= <-]. reflexivity.
Qed.

Lemma coherent_fire (w w' : World) (id : nat) :
  fire id w = Some w' -> coherent w -> coherent w'.
Proof.
  unfold fire. destruct (timers w !! id) as [t|] eqn:Ht; [|discriminate].
  intros [= <-] Hc.
  assert (Htr' : timers_track_result
                   {| page := validation_callback (captured t) (page w);
                      timers := delete id (timers w); next_timer := next_timer w;
                      effect_cleanup := effect_cleanup w; in_flight := in_flight w |}).
  { apply (handle_tracks w _ (TimerFires id) (coh_tracks w Hc)).
    cbn [handle]. unfold fire. rewrite Ht. reflexivity. }
  destruct Hc as [a b c d e f g h].
  destruct (b id t Ht) as (Hdelay & Hmd & Hrd & Hte).
  destruct a as [Hp Hb]. cbn [timer_view] in Hp.
  destruct (Hp id t Ht) as [Hcl Hgr].
  assert (Hgone : forall id', delete id (timers w) !! id' = None).
  { intros id'. destruct (delete id (timers w) !! id') as [t'|] eqn:Hl; [|reflexivity].
    apply lookup_delete_Some in Hl as [Hne Hl].
    destruct (Hp id' t' Hl) as [Hcl' _]. congruence. }
  revert Htr'. unfold validation_callback.
  destruct (validate (captured t)) as [err|[]] eqn:Hval; intros Htr';
    constructor; page_fields; try exact Htr'; try assumption; try discriminate.
  - intros id' t' Hl. rewrite Hgone in Hl. discriminate.
  - rewrite Hgr. discriminate.
  - rewrite Hrd. discriminate.
  - pose proof (validate_error_message _ _ Hmd Hval) as ->.
    intros m [= <-]. cbn [Js.message_or]. split; [reflexivity|]. split; [exact Hrd|].
    exists (captured t). split; [exact Hgr|exact Hval].
  - intros id' t' Hl. rewrite Hgone in Hl. discriminate.
  - rewrite Hgr. discriminate.
  - intros _. exists (captured t). split; [exact Hgr|]. split; [exact Hval|exact Hte].
  - rewrite Hte. discriminate.
Qed.

Lemma same_core_choose (files : option (list File)) (w : World) :
  same_core w (with_page (choose files) w).
Proof.
  unfold same_core, with_page, choose.
  cbn [page timers next_timer effect_cleanup in_flight].
  destruct files as [[|f fs]|], (fileInputRef (page w)); repeat split.
Qed.

Lemma handle_coherent (w w' : World) (e : Event) :
  coherent w -> handle w e = Some w' -> coherent w'.
Proof.
  intros Hc. destruct e as [| |files|files| | |k o|k o|id]; cbn [handle].
  - destruct (dropzone_rendered (page w)); [|discriminate]. intros [= <-].
    apply (coherent_same_core w); [repeat split|exact Hc].
  - destruct (dropzone_rendered (page w)); [|discriminate]. intros [= <-].
    apply (coherent_same_core w); [repeat split|exact Hc].
  - destruct (dropzone_rendered (page w)); [|discriminate]. intros [= <-].
    unfold handleDrop. destruct files as [|f fs].
    + apply (coherent_same_core w); [repeat split|exact Hc].
    + apply coherent_handleFileUpload.
      apply (coherent_same_core w); [repeat split|exact Hc].
  - destruct (dropzone_rendered (page w) && negb (isUploading (page w))); [|discriminate].
    intros [= <-].
    pose proof (coherent_same_core _ _ (same_core_choose files w) Hc) as Hc'.
    unfold handleFileSelect. destruct files as [[|f fs]|]; try exact Hc'.
    apply coherent_handleFileUpload, Hc'.
  - unfold upload_card_rendered.
    destruct (generate3DResult (page w)) as [r|] eqn:Hgr;
      [rewrite andb_false_r; discriminate|].
    destruct (isGenerating3D (page w)) eqn:Hgn;
      [rewrite andb_false_r; discriminate|].
    destruct (_ && _); [|discriminate]. intros [= <-].
    apply coherent_handleGenerate3D; assumption.
  - destruct (_ || _); [|discriminate]. intros [= <-].
    apply coherent_click_reset, Hc.
  - destruct (in_flight w !! k) as [[req|req]|] eqn:Hk; try discriminate.
    intros [= <-]. exact (coherent_upload_settles w k req o Hk Hc).
  - destruct (in_flight w !! k) as [[req|req]|] eqn:Hk; try discriminate.
    intros [= <-]. exact (coherent_generation_settles w k req o Hk Hc).
  - intros Hf. exact (coherent_fire w w' id Hf Hc).
Qed.

Lemma step_coherent (w w' : World) (e : Event) :
  coherent w -> step w e = Some w' -> coherent w'.
Proof.
  unfold step. intros Hc Hs.
  destruct (handle w e) as [w1|] eqn:Hh; [|discriminate].
  injection Hs as <-.
  apply (coherent_same_core w1); [apply same_core_attach|].
  exact (handle_coherent w w1 e Hc Hh).
Qed.

Lemma run_coherent (es : list Event) (w w' : World) :
  coherent w -> run w es = Some w' -> coherent w'.
Proof.
  revert w. induction es as [|e es IH]; intros w Hc; cbn [run].
  - intros [= <-]. exact Hc.
  - destruct (step w e) as [w1|] eqn:Hs; [|discriminate].
    apply IH. exact (step_coherent w w1 e Hc Hs).
Qed.

Lemma reachable_coherent (w : World) : reachable w -> coherent w.
Proof. intros [es Hrun]. exact (run_coherent es _ _ initial_world_coherent Hrun). Qed.

(** Runs [es] from the initial page: leaves the world reached, in normal form,
    and the fact that it is reachable. *)
Ltac reach_by_run es Hreach :=
  let w := fresh "w" in
  let Hrun := fresh "Hrun" in
  destruct (run initial_world es) as [w|] eqn:Hrun;
  [ assert (Hreach : reachable w) by (exists es; exact Hrun);
    vm_compute in Hrun; injection Hrun as Hrun; subst w
  | vm_compute in Hrun; discriminate ].

(** X12.  After any sequence of events at most one generation request is
    pending, and [isGenerating3D] is set exactly when one is; while it is set
    no generation result is stored and "Start Analysis" is not offered. *)
Theorem X12_one_generation_at_a_time (w : World) :
  reachable w ->
  pending_generations w = (if isGenerating3D (page w) then 1%nat else 0%nat)
  /\ (pending_generations w <= 1)%nat
  /\ (isGenerating3D (page w) = true ->
      generate3DResult (page w) = None /\ step w ClickStartAnalysis = None).
Proof.
  intros Hr. destruct (reachable_coherent w Hr) as [a b c d e f g h].
  split; [exact e|]. split.
  - rewrite e. destruct (isGenerating3D (page w)); lia.
  - intros Hgn. split; [exact (d Hgn)|].
    unfold step, handle. rewrite Hgn, andb_false_r. reflexivity.
Qed.

Lemma X12_one_generation_at_a_time_witness :
  exists w,
    run initial_world
      [Drop [rock_jpg]; UploadSettles 0 (ok_response uploaded_abc123); ClickStartAnalysis]
    = Some w
    /\ isGenerating3D (page w) = true
    /\ pending_generations w = 1%nat
    /\ step w ClickStartAnalysis = None.
Proof.
  reach_by_run
    [Drop [rock_jpg]; UploadSettles 0 (ok_response uploaded_abc123); ClickStartAnalysis]
    Hreach.
  eexists. split; [reflexivity|]. split; [reflexivity|].
  destruct (X12_one_generation_at_a_time _ Hreach) as (Hcount & _ & Hset).
  split; [exact Hcount|exact (proj2 (Hset eq_refl))].
Defined.

(** X13.  After any sequence of events, whenever [isUploading] is set (the
    page shows "Uploading...") at least one upload request is still pending,
    whose completion will clear the flag. *)
Theorem X13_uploading_has_pending_request (w : World) :
  reachable w ->
  isUploading (page w) = true ->
  (1 <= pending_uploads w)%nat
  /\ exists k request, in_flight w !! k = Some (AwaitUpload request).
Proof.
  intros Hr Hu. pose proof (coh_uploading w (reachable_coherent w Hr) Hu) as Hn.
  split; [exact Hn|]. unfold pending_uploads in Hn.
  destruct (List.filter is_upload (in_flight w)) as [|x xs] eqn:Hf;
    [cbn in Hn; lia|].
  assert (Hin : List.In x (List.filter is_upload (in_flight w)))
    by (rewrite Hf; left; reflexivity).
  apply List.filter_In in Hin as [Hin Hx].
  apply list_elem_of_In, list_elem_of_lookup in Hin as [k Hk].
  destruct x as [request|request]; [|discriminate].
  exists k, request. exact Hk.
Qed.

Lemma X13_uploading_has_pending_request_witness :
  exists w,
    run initial_world [Drop [rock_jpg]; Drop [pebble_png]] = Some w
    /\ isUploading (page w) = true
    /\ (1 <= pending_uploads w)%nat.
Proof.
  reach_by_run [Drop [rock_jpg]; Drop [pebble_png]] Hreach.
  eexists. split; [reflexivity|]. split; [reflexivity|].
  exact (proj1 (X13_uploading_has_pending_request _ Hreach eq_refl)).
Defined.

Lemma viewport_views_ready (s : State) :
  is3DReady s = true -> threeDError s = None -> truthy (generate3DResult s) = true ->
  viewport_views s = [MeshView].
Proof. unfold viewport_views. intros -> -> ->. reflexivity. Qed.



(** X15.  After any sequence of events, whenever the viewport card is
    rendered it shows exactly one of the loader, the error view and the mesh
    view: the loader while neither flag is set, the error view when a
    validation error is set, the mesh view when the 3D-ready flag is set. *)
Theorem X15_viewport_shows_one_view (w : World) :
  reachable w ->
  viewport_card_rendered (page w) = true ->
  (is3DReady (page w) = false /\ threeDError (page w) = None
   /\ viewport_views (page w) = [LoaderView])
  \/ (is3DReady (page w) = false /\ threeDError (page w) <> None
      /\ viewport_views (page w) = [ErrorView])
  \/ (is3DReady (page w) = true /\ threeDError (page w) = None
      /\ viewport_views (page w) = [MeshView]).
Proof.
  intros Hr Hcard. pose proof (reachable_coherent w Hr) as Hc.
  unfold viewport_card_rendered in Hcard.
  destruct (is3DReady (page w)) eqn:Hrd.
  - right. right. destruct (coh_ready w Hc Hrd) as (r & _ & _ & Hte).
    split; [reflexivity|]. split; [exact Hte|].
    apply viewport_views_ready; assumption.
  - destruct (threeDError (page w)) as [m|] eqn:Hte.
    + right. left. destruct (coh_error w Hc m Hte) as (-> & _ & _).
      split; [reflexivity|]. split; [discriminate|].
      unfold viewport_views. rewrite Hrd, Hte. reflexivity.
    + left. split; [reflexivity|]. split; [reflexivity|].
      unfold viewport_views. rewrite Hrd, Hte. reflexivity.
Qed.

Lemma X15_viewport_shows_one_view_witness :
  exists w,
    run initial_world (until_stored triangle_payload) = Some w
    /\ viewport_card_rendered (page w) = true
    /\ viewport_views (page w) = [LoaderView].
Proof.
  reach_by_run (until_stored triangle_payload) Hreach.
  eexists. split; [reflexivity|]. split; [reflexivity|].
  destruct (X15_viewport_shows_one_view _ Hreach eq_refl)
    as [(_ & _ & Hv) | [(_ & Hte & _) | (Hrd & _)]].
  - exact Hv.
  - exfalso. apply Hte. reflexivity.
  - discriminate Hrd.
Defined.

(** X16.  After any sequence of events, a validation error shown in the
    viewport is always "Invalid model data structure" (the fallback "Failed to
    prepare 3D model" and the TypeError of a missing payload never appear), the
    3D-ready flag is then clear, and the stored payload has [vertices] missing
    or empty or [faces] missing. *)
Theorem X16_validation_error_is_invalid_structure (w : World) (m : string) :
  reachable w ->
  threeDError (page w) = Some m ->
  m = "Invalid model data structure"
  /\ is3DReady (page w) = false
  /\ viewport_views (page w) = [ErrorView]
  /\ exists r modelData,
       generate3DResult (page w) = Some r
       /\ model_data r = Some modelData
       /\ (vertices modelData = None \/ vertices modelData = Some []
           \/ faces modelData = None).
Proof.
  intros Hr Hte.
  destruct (coh_error w (reachable_coherent w Hr) m Hte) as (-> & Hrd & r & Hgr & Hval).
  split; [reflexivity|]. split; [exact Hrd|]. split.
  { unfold viewport_views. rewrite Hrd, Hte. reflexivity. }
  exists r.
  destruct (model_data r) as [md|] eqn:Hmd;
    [|destruct (validate_missing r Hmd) as [k Hk]; rewrite Hk in Hval; discriminate].
  rewrite (validate_defined r md Hmd) in Hval.
  exists md. split; [exact Hgr|]. split; [reflexivity|].
  destruct (vertices md) as [[|v vs]|]; auto.
  destruct (faces md) as [fs|]; auto. discriminate.
Qed.

Lemma X16_validation_error_is_invalid_structure_witness :
  exists w,
    run initial_world (until_validated empty_vertices_payload) = Some w
    /\ threeDError (page w) = Some "Invalid model data structure"
    /\ viewport_views (page w) = [ErrorView].
Proof.
  reach_by_run (until_validated empty_vertices_payload) Hreach.
  eexists. split; [reflexivity|]. split; [reflexivity|].
  exact (proj1 (proj2 (proj2
    (X16_validation_error_is_invalid_structure _ _ Hreach eq_refl)))).
Defined.



(** X18.  After any sequence of events at most one validation timer is
    pending; it has the 500 ms delay, it is the one the effect's cleanup will
    clear, it closes over the stored result, and while it is pending neither
    flag is set, so the viewport shows the loader. *)
Theorem X18_single_pending_timer (w : World) (id : nat) (t : Timeout) :
  reachable w ->
  timers w !! id = Some t ->
  delay t = 500%N
  /\ effect_cleanup w = Some id
  /\ generate3DResult (page w) = Some (captured t)
  /\ (forall id' t', timers w !! id' = Some t' -> id' = id /\ t' = t)
  /\ viewport_views (page w) = [LoaderView].
Proof.
  intros Hr Ht. pose proof (reachable_coherent w Hr) as Hc.
  destruct (coh_pending w Hc id t Ht) as (Hdelay & _ & Hrd & Hte).
  destruct (coh_tracks w Hc) as [Hp _]. cbn [timer_view] in Hp.
  destruct (Hp id t Ht) as [Hcl Hgr].
  split; [exact Hdelay|]. split; [exact Hcl|]. split; [exact Hgr|]. split.
  - intros id' t' Ht'. destruct (Hp id' t' Ht') as [Hcl' _].
    rewrite Hcl in Hcl'. injection Hcl' as <-.
    rewrite Ht in Ht'. injection Ht' as <-. split; reflexivity.
  - unfold viewport_views. rewrite Hrd, Hte. reflexivity.
Qed.

Lemma X18_single_pending_timer_witness :
  exists w,
    run initial_world (until_stored triangle_payload) = Some w
    /\ timers w !! 0%nat = Some {| captured := generated triangle_payload; delay := 500 |}
    /\ effect_cleanup w = Some 0%nat
    /\ viewport_views (page w) = [LoaderView].
Proof.
  reach_by_run (until_stored triangle_payload) Hreach.
  eexists. split; [reflexivity|].
  match goal with
  | |- ?lookup = ?timer /\ _ =>
      assert (Ht : lookup = timer) by (vm_compute; reflexivity)
  end.
  destruct (X18_single_pending_timer _ 0%nat _ Hreach Ht) as (_ & Hcl & _ & _ & Hviews).
  split; [exact Ht|]. split; [exact Hcl|exact Hviews].
Defined.

(** X19.  After any sequence of events a reset click cancels the pending
    validation: afterwards no timer is pending and none can go off, no cleanup
    is registered, the drop zone is rendered again and a file input with an
    empty value is mounted. *)
Theorem X19_reset_cancels_validation (w w' : World) :
  reachable w ->
  step w ClickReset = Some w' ->
  (forall id, timers w' !! id = None)
  /\ (forall id, step w' (TimerFires id) = None)
  /\ effect_cleanup w' = None
  /\ dropzone_rendered (page w') = true
  /\ fileInputRef (page w') = Some {| value := "" |}.
Proof.
  intros Hr. unfold step at 1, handle.
  destruct (_ || _); [|discriminate]. intros [= <-].
  pose proof (coh_tracks w (reachable_coherent w Hr)) as Htr.
  assert (Hnone : forall id, timers (with_page attach_ref (click_reset w)) !! id = None).
  { intros id. rewrite click_reset_eq. cbn [with_page timers].
    exact (tracks_cleared _ _ _ _ id Htr). }
  split; [exact Hnone|]. split.
  - intros id. unfold step. cbn [handle]. unfold fire. rewrite Hnone. reflexivity.
  - rewrite click_reset_eq. cbn [with_page effect_cleanup page].
    split; [reflexivity|].
    unfold resetUpload.
    destruct (page w) as [dr up ur er gn gr rd te [el|]]; split; reflexivity.
Qed.

Lemma X19_reset_cancels_validation_witness :
  exists w,
    run initial_world (until_stored triangle_payload) = Some w
    /\ timers w !! 0%nat = Some {| captured := generated triangle_payload; delay := 500 |}
    /\ exists w',
         step w ClickReset = Some w'
         /\ timers w' !! 0%nat = None
         /\ step w' (TimerFires 0) = None.
Proof.
  reach_by_run (until_stored triangle_payload) Hreach.
  eexists. split; [reflexivity|]. split; [vm_compute; reflexivity|].
  match goal with
  | |- exists w', step ?w ClickReset = Some w' /\ _ =>
      exists (with_page attach_ref (click_reset w));
      destruct (X19_reset_cancels_validation w _ Hreach eq_refl) as (Hnone & Hfire & _)
  end.
  split; [reflexivity|]. split; [exact (Hnone 0%nat)|exact (Hfire 0%nat)].
Defined.

(** X20.  Once a result with model data is stored and its timer goes off:
    when [vertices] is missing or empty or [faces] is missing, the viewport
    shows the error view with "Invalid model data structure" and the 3D-ready
    flag stays clear; when [vertices] and [faces] are both non-empty, the flag
    is set, no error is set and the mesh view is shown. *)
Theorem X20_validation_verdict (w : World) (o : Fetch.Settled Generate3DResponse)
        (r : Generate3DResponse) (modelData : ModelData) :
  generate_try o = inr (Some r) ->
  model_data r = Some modelData ->
  exists w2,
    fire (next_timer w) (handleGenerate3D_resume o w) = Some w2
    /\ (vertices modelData = None \/ vertices modelData = Some []
        \/ faces modelData = None ->
        is3DReady (page w2) = false
        /\ threeDError (page w2) = Some "Invalid model data structure"
        /\ viewport_views (page w2) = [ErrorView])
    /\ (forall v vs f fs,
          vertices modelData = Some (v :: vs) -> faces modelData = Some (f :: fs) ->
          is3DReady (page w2) = true
          /\ threeDError (page w2) = None
          /\ viewport_views (page w2) = [MeshView]).
Proof.
  intros Ho Hmd.
  destruct (validation_outcome w o r modelData Ho Hmd)
    as (Ht & _ & _ & w2 & Hfire & Hgood & Hbad).
  exists w2. split; [exact Hfire|].
  assert (Hgr : generate3DResult (page w2) = Some r).
  { unfold fire in Hfire. rewrite Ht in Hfire. injection Hfire as <-.
    cbn [page captured]. unfold validation_callback.
    assert (Hst : generate3DResult (page (handleGenerate3D_resume o w)) = Some r).
    { assert (Hx : (timer_view (handleGenerate3D_resume o w)).1.1.1 = Some r).
      { unfold handleGenerate3D_resume. rewrite Ho, timer_view_changed.
        cbn [timer_view with_page page generate3DResult setIsGenerating3D
             setGenerate3DResult changed_view].
        rewrite Hmd. reflexivity. }
      exact Hx. }
    destruct (validate r); cbn [generate3DResult setIs3DReady setThreeDError]; exact Hst. }
  split.
  - intros Hmissing.
    destruct Hbad as [Hrd Hte].
    { intros (vs & fs & Hv & Hne & Hf).
      destruct Hmissing as [H|[H|H]]; congruence. }
    split; [exact Hrd|]. split; [exact Hte|].
    unfold viewport_views. rewrite Hrd, Hte. reflexivity.
  - intros v vs f fs Hv Hf.
    destruct Hgood as [Hrd Hte].
    { exists (v :: vs), (f :: fs). split; [exact Hv|]. split; [discriminate|exact Hf]. }
    split; [exact Hrd|]. split; [exact Hte|].
    apply viewport_views_ready; [exact Hrd|exact Hte|]. rewrite Hgr. reflexivity.
Qed.

Lemma X20_validation_verdict_witness :
  exists w2,
    fire 0 (handleGenerate3D_resume (ok_response (generated no_faces_payload))
              initial_world) = Some w2
    /\ threeDError (page w2) = Some "Invalid model data structure"
    /\ viewport_views (page w2) = [ErrorView].
Proof.
  assert (Hstored : generate_try (ok_response (generated no_faces_payload))
                    = inr (Some (generated no_faces_payload))) by reflexivity.
  destruct (X20_validation_verdict initial_world
              (ok_response (generated no_faces_payload))
              (generated no_faces_payload) no_faces_payload Hstored eq_refl)
    as (w2 & Hfire & Hbad & _).
  exists w2. split; [exact Hfire|].
  destruct Hbad as (_ & Hte & Hviews); [right; right; reflexivity|].
  split; [exact Hte|exact Hviews].
Defined.

Lemma run_app (es1 es2 : list Event) (w w1 : World) :
  run w es1 = Some w1 -> run w (es1 ++ es2) = run w1 es2.
Proof.
  revert w. induction es1 as [|e es1 IH]; intros w; cbn [run app].
  - intros [= <-]. reflexivity.
  - destruct (step w e) as [w'|]; [|discriminate]. apply IH.
Qed.

(** X21.  Uploads are not serialised and not cancelled: a second drop is
    accepted while the first upload is pending, and each response is applied
    when it arrives.  When the first response to arrive is a failure with
    message [m] and the second a success with body [r], the page ends with
    both the upload result [r] and the error [m] set, and renders the upload
    card and the error card together. *)
Theorem X21_overlapping_uploads_both_applied
        (f1 f2 : File) (m : string) (r : UploadResponse) :
  m <> "" ->
  exists w1 w2,
    run initial_world [Drop [f1]; Drop [f2]] = Some w1
    /\ in_flight w1 = [AwaitUpload (upload_request f1); AwaitUpload (upload_request f2)]
    /\ run w1 [ UploadSettles 0 (Fetch.Rejected (Js.ErrorObject m));
                UploadSettles 0 (ok_response r) ] = Some w2
    /\ uploadResult (page w2) = Some r
    /\ error (page w2) = Some m
    /\ isUploading (page w2) = false
    /\ in_flight w2 = []
    /\ upload_card_rendered (page w2) = true
    /\ error_card_rendered (page w2) = true.
Proof.
  intros Hm. destruct m as [|c m]; [contradiction|].
  eexists _, _. split; [vm_compute; reflexivity|]. split; [reflexivity|].
  split; [vm_compute; reflexivity|]. repeat split.
Qed.

Lemma X21_overlapping_uploads_both_applied_witness :
  exists w2,
    run initial_world
      [ Drop [rock_jpg]; Drop [pebble_png];
        UploadSettles 0 (Fetch.Rejected (Js.ErrorObject "Failed to fetch"));
        UploadSettles 0 (ok_response uploaded_abc123) ] = Some w2
    /\ uploadResult (page w2) = Some uploaded_abc123
    /\ error (page w2) = Some "Failed to fetch".
Proof.
  destruct (X21_overlapping_uploads_both_applied rock_jpg pebble_png "Failed to fetch"
              uploaded_abc123 ltac:(discriminate))
    as (w1 & w2 & Hrun1 & _ & Hrun2 & Hres & Herr & _).
  exists w2. split; [|split; [exact Hres|exact Herr]].
  change (run initial_world
            ([Drop [rock_jpg]; Drop [pebble_png]]
             ++ [UploadSettles 0 (Fetch.Rejected (Js.ErrorObject "Failed to fetch"));
                 UploadSettles 0 (ok_response uploaded_abc123)]) = Some w2).
  rewrite (run_app _ _ _ _ Hrun1). exact Hrun2.
Defined.
